(** * CYOAI: the blocklist of [CYOAI_with_admin.py]

    A shallow embedding of the rule store ([load_rules], [save_rules]), the
    matcher ([is_malicious]) and the rule routes of the admin dashboard
    ([admin_add_rule], [admin_remove_rule], [admin_reload_rules],
    [admin_reset_rules]), with the properties of the specification stated
    and proved over it.

    Conventions of the model.
    - A Python [str] is a Coq [string]; its characters stand for the code
      points U+0000 to U+00FF.  Case mapping, white space and the escapes of
      [json] are those of Python on that range; text beyond Latin-1 is outside
      the model.
    - [rules.json] is the only file the program touches; the disk is the state
      of that file.  Writing never fails.
    - A Python exception that leaves a function is a [Raise] result; the
      [try]/[except Exception] blocks of the source are the matches that turn a
      failure of the guarded call into the handler's code. *)

From Stdlib Require Import String Ascii List ZArith NArith Bool Arith Lia.
From Stdlib Require Import DecimalString.
Import ListNotations.

Local Open Scope list_scope.
Local Open Scope string_scope.

(** ** Python strings *)

Module Str.

Definition code (c : ascii) : N := N_of_ascii c.

Definition between (lo hi : N) (c : ascii) : bool :=
  ((lo <=? code c) && (code c <=? hi))%N.

(** [str.lower] on one character: A-Z, and the capital letters of
    Latin-1 (U+00C0 to U+00DE without the multiplication sign U+00D7), move
    up by 32. *)
Definition lower_char (c : ascii) : ascii :=
  if between 65 90 c || (between 192 222 c && negb (code c =? 215)%N)
  then ascii_of_N (code c + 32)
  else c.

Fixpoint map_chars (f : ascii -> ascii) (s : string) : string :=
  match s with
  | EmptyString => EmptyString
  | String c s' => String (f c) (map_chars f s')
  end.

(** [s.lower()] *)
Definition lower (s : string) : string := map_chars lower_char s.

(** [s.startswith(p)] *)
Definition startswith (s p : string) : bool := String.prefix p s.

(** [sub in s] *)
Fixpoint contains (s sub : string) : bool :=
  startswith s sub ||
  match s with
  | EmptyString => false
  | String _ s' => contains s' sub
  end.

(** [s[n:]] *)
Fixpoint slice_from (n : nat) (s : string) : string :=
  match n, s with
  | O, _ => s
  | S _, EmptyString => EmptyString
  | S n', String _ s' => slice_from n' s'
  end.

(** [c.isspace()]: U+0009 to U+000D, U+001C to U+0020, U+0085, U+00A0. *)
Definition isspace (c : ascii) : bool :=
  between 9 13 c || between 28 32 c || (code c =? 133)%N || (code c =? 160)%N.

Fixpoint lstrip (s : string) : string :=
  match s with
  | EmptyString => EmptyString
  | String c s' => if isspace c then lstrip s' else s
  end.

Fixpoint rstrip (s : string) : string :=
  match s with
  | EmptyString => EmptyString
  | String c s' =>
      match rstrip s' with
      | EmptyString => if isspace c then EmptyString else String c EmptyString
      | r => String c r
      end
  end.

(** [s.strip()] *)
Definition strip (s : string) : string := rstrip (lstrip s).

Definition all_chars (p : ascii -> bool) (s : string) : bool :=
  forallb p (list_ascii_of_string s).

End Str.

(** ** Values read from and written to [rules.json] *)

#[local] Set Warnings "-register-all".

(** What [json.load] can return.  A float is kept as the text that denotes
    it; [NaN], [Infinity] and [-Infinity] are floats too.  A [dict] is the
    list of its items in insertion order. *)
Inductive json : Type :=
| JNull
| JBool (b : bool)
| JInt (z : Z)
| JFloat (lexeme : string)
| JStr (s : string)
| JList (items : list json)
| JDict (items : list (string * json)).

Definition is_str (v : json) : bool :=
  match v with JStr _ => true | _ => false end.

(** ** Exceptions *)

Inductive exn : Type :=
| AttributeError.

Inductive result (A : Type) : Type :=
| Ok (a : A)
| Raise (e : exn).
Arguments Ok {A} a.
Arguments Raise {A} e.

(** ** The [re] module, as the matcher uses it *)

(** [re.search(pattern, string)] compiles the pattern, which fails with
    [re.error] on a malformed one, and looks for a match at any position.
    [compile] takes the [re.IGNORECASE] flag. *)
Record regex_engine : Type := {
  pattern : Type;
  compile : string -> bool -> option pattern;
  search : pattern -> string -> bool
}.

(** ** The matcher *)

Section Matcher.

Variable re : regex_engine.

(** [re.search(p, t)] with no flags; [None] when it raises. *)
Definition re_search (p t : string) : option bool :=
  match compile re p false with
  | Some c => Some (search re c t)
  | None => None
  end.

(** The body of the loop of [is_malicious] for one rule [pat] on the
    lower-cased text [t]: [Ok true] is [return True], [Ok false] goes on to
    the next rule.  A rule that is not a [str] has no [startswith], which
    raises inside the [try], and no [lower], which raises inside the
    handler. *)
Definition rule_blocks (pat : json) (t : string) : result bool :=
  match pat with
  | JStr p =>
      if Str.startswith p "re:" then
        match re_search (Str.slice_from 3 p) t with
        | Some found => Ok found
        | None => Ok (Str.contains t (Str.lower p))
        end
      else Ok (Str.contains t (Str.lower p))
  | _ => Raise AttributeError
  end.

Fixpoint first_match (pats : list json) (t : string) : result bool :=
  match pats with
  | [] => Ok false
  | pat :: rest =>
      match rule_blocks pat t with
      | Ok true => Ok true
      | Ok false => first_match rest t
      | Raise e => Raise e
      end
  end.

(** [is_malicious(text)], reading the global [BLOCKED_PATTERNS]. *)
Definition is_malicious (BLOCKED_PATTERNS : list json) (text : string)
  : result bool :=
  let t := Str.lower text in
  first_match BLOCKED_PATTERNS t.

End Matcher.

(** ** A regular-expression engine

    An engine for a fragment of the syntax of [re]: literal characters, [.],
    the escapes [\d \w \s \D \W \S \b \B] and an escaped punctuation
    character, [^] and [$], groups in parentheses, [|], and the repetitions
    [*], [+], [?] (a lazy repetition has the same matches), with the meaning
    [re] gives them on a [str].  Classes in brackets, counted
    repetitions, extension groups [(?...)] and the remaining escapes are left
    out: [parse] answers [Unsupported] for them. *)

Module Re.

Inductive class : Type := Digit | Word | Space.

Inductive anchor : Type := Bol | Eol | Boundary | NotBoundary.

Inductive regex : Type :=
| Empty
| Lit (c : ascii)
| Dot
| Class (k : class) (negated : bool)
| At (a : anchor)
| Cat (r1 r2 : regex)
| Or (r1 r2 : regex)
| Star (r : regex).

Inductive outcome (A : Type) : Type :=
| Done (a : A)
| SyntaxError          (* re.error *)
| Unsupported.         (* outside the fragment *)
Arguments Done {A} a.
Arguments SyntaxError {A}.
Arguments Unsupported {A}.

(** *** Parsing *)

Definition is_quantifier (c : ascii) : bool :=
  (c =? "*")%char || (c =? "+")%char || (c =? "?")%char.

Definition is_ascii_alnum (c : ascii) : bool :=
  Str.between 48 57 c || Str.between 65 90 c || Str.between 97 122 c.

(** The escape [\c]. *)
Definition parse_escape (c : ascii) : outcome regex :=
  if (c =? "d")%char then Done (Class Digit false)
  else if (c =? "D")%char then Done (Class Digit true)
  else if (c =? "w")%char then Done (Class Word false)
  else if (c =? "W")%char then Done (Class Word true)
  else if (c =? "s")%char then Done (Class Space false)
  else if (c =? "S")%char then Done (Class Space true)
  else if (c =? "b")%char then Done (At Boundary)
  else if (c =? "B")%char then Done (At NotBoundary)
  else if is_ascii_alnum c then Unsupported
  else Done (Lit c).

(** A repetition mark after an item: [*], [+] or [?], then possibly the
    [?] of a lazy repetition.  An anchor cannot be repeated, and a
    repetition cannot be repeated again. *)
Definition parse_repeat (item : regex) (s : string) : outcome (regex * string) :=
  match s with
  | String q s' =>
      if is_quantifier q then
        match item with
        | At _ => SyntaxError
        | _ =>
            let r := if (q =? "*")%char then Star item
                     else if (q =? "+")%char then Cat item (Star item)
                     else Or item Empty in
            match s' with
            | String q2 s'' =>
                if (q2 =? "?")%char then
                  match s'' with
                  | String q3 _ =>
                      if is_quantifier q3 then SyntaxError else Done (r, s'')
                  | EmptyString => Done (r, s'')
                  end
                else if (q2 =? "*")%char then SyntaxError
                else if (q2 =? "+")%char then Unsupported
                else Done (r, s')
            | EmptyString => Done (r, s')
            end
        end
      else if (q =? "{")%char then Unsupported
      else Done (item, s)
  | EmptyString => Done (item, s)
  end.

(** [parse_alt] reads alternatives up to the end of the pattern or to a
    closing parenthesis, which it leaves in place. *)
Fixpoint parse_alt (fuel : nat) (s : string) : outcome (regex * string) :=
  match fuel with
  | O => Unsupported
  | S fuel' =>
      match parse_cat fuel' s with
      | Done (r1, String "|" s') =>
          match parse_alt fuel' s' with
          | Done (r2, rest) => Done (Or r1 r2, rest)
          | other => other
          end
      | other => other
      end
  end

with parse_cat (fuel : nat) (s : string) : outcome (regex * string) :=
  match fuel with
  | O => Unsupported
  | S fuel' =>
      match s with
      | EmptyString => Done (Empty, s)
      | String c s' =>
          if (c =? "|")%char || (c =? ")")%char then Done (Empty, s)
          else
            let item :=
              if (c =? "(")%char then
                match s' with
                | String "?" _ => Unsupported
                | _ =>
                    match parse_alt fuel' s' with
                    | Done (r, String ")" rest) => Done (Cat r Empty, rest)
                    | Done (_, _) => SyntaxError
                    | other => other
                    end
                end
              else if (c =? "\")%char then
                match s' with
                | String e rest =>
                    match parse_escape e with
                    | Done r => Done (r, rest)
                    | SyntaxError => SyntaxError
                    | Unsupported => Unsupported
                    end
                | EmptyString => SyntaxError
                end
              else if is_quantifier c then SyntaxError
              else if (c =? "[")%char || (c =? "{")%char then Unsupported
              else if (c =? ".")%char then Done (Dot, s')
              else if (c =? "^")%char then Done (At Bol, s')
              else if (c =? "$")%char then Done (At Eol, s')
              else Done (Lit c, s') in
            match item with
            | Done (r, rest) =>
                match parse_repeat r rest with
                | Done (r1, rest1) =>
                    match parse_cat fuel' rest1 with
                    | Done (r2, rest2) => Done (Cat r1 r2, rest2)
                    | other => other
                    end
                | other => other
                end
            | other => other
            end
      end
  end.

Definition parse (p : string) : outcome regex :=
  match parse_alt (3 * String.length p + 3) p with
  | Done (r, EmptyString) => Done r
  | Done (_, String _ _) => SyntaxError      (* a closing parenthesis too many *)
  | SyntaxError => SyntaxError
  | Unsupported => Unsupported
  end.

(** *** Matching *)

Definition is_word (c : ascii) : bool :=
  is_ascii_alnum c || (c =? "_")%char
  || (Str.code c =? 170)%N || (Str.code c =? 181)%N || (Str.code c =? 186)%N
  || Str.between 178 179 c || (Str.code c =? 185)%N || Str.between 188 190 c
  || (Str.between 192 255 c
      && negb (Str.code c =? 215)%N && negb (Str.code c =? 247)%N).

Definition in_class (k : class) (c : ascii) : bool :=
  match k with
  | Digit => Str.between 48 57 c
  | Word => is_word c
  | Space => Str.isspace c
  end.

Definition word_before (prev : option ascii) : bool :=
  match prev with Some c => is_word c | None => false end.

Definition word_after (s : string) : bool :=
  match s with String c _ => is_word c | EmptyString => false end.

(** [prev] is the character before the position, [None] at the start. *)
Definition holds (a : anchor) (prev : option ascii) (s : string) : bool :=
  match a with
  | Bol => match prev with None => true | Some _ => false end
  | Eol => match s with
           | EmptyString => true
           | String c EmptyString => (c =? "010")%char
           | _ => false
           end
  | Boundary => xorb (word_before prev) (word_after s)
  | NotBoundary => negb (xorb (word_before prev) (word_after s))
  end.

Definition same_char (ignorecase : bool) (c x : ascii) : bool :=
  if ignorecase then (Str.lower_char c =? Str.lower_char x)%char
  else (c =? x)%char.

(** [matches ic r prev s k]: some match of [r] at the start of [s] leaves
    a rest that the continuation [k] accepts.  A repetition goes round
    again only after consuming a character. *)
Fixpoint matches (ic : bool) (r : regex) (prev : option ascii) (s : string)
         (k : option ascii -> string -> bool) {struct r} : bool :=
  match r with
  | Empty => k prev s
  | Lit c =>
      match s with
      | String x s' => same_char ic c x && k (Some x) s'
      | EmptyString => false
      end
  | Dot =>
      match s with
      | String x s' => negb (x =? "010")%char && k (Some x) s'
      | EmptyString => false
      end
  | Class c negated =>
      match s with
      | String x s' => xorb negated (in_class c x) && k (Some x) s'
      | EmptyString => false
      end
  | At a => holds a prev s && k prev s
  | Cat r1 r2 => matches ic r1 prev s (fun p' s' => matches ic r2 p' s' k)
  | Or r1 r2 => matches ic r1 prev s k || matches ic r2 prev s k
  | Star r1 =>
      (fix loop (n : nat) (prev : option ascii) (s : string) : bool :=
         k prev s ||
         match n with
         | O => false
         | S n' =>
             matches ic r1 prev s
               (fun p' s' =>
                  (String.length s' <? String.length s)%nat && loop n' p' s')
         end) (String.length s) prev s
  end.

(** A match starting at some position of [s]. *)
Fixpoint search_from (ic : bool) (r : regex) (prev : option ascii) (s : string) : bool :=
  matches ic r prev s (fun _ _ => true) ||
  match s with
  | String c s' => search_from ic r (Some c) s'
  | EmptyString => false
  end.

Definition compiled : Type := bool * regex.

Definition re_compile (p : string) (ignorecase : bool) : option compiled :=
  match parse p with
  | Done r => Some (ignorecase, r)
  | _ => None
  end.

Definition re_search (c : compiled) (s : string) : bool :=
  search_from (fst c) (snd c) None s.

Definition engine : regex_engine :=
  {| pattern := compiled; compile := re_compile; search := re_search |}.

End Re.


(** ** The [json] module, as the rule store uses it *)

Module Json.

Definition quote : ascii := "034"%char.

(** *** [json.dump(v, f, indent=2)] *)

Definition hex_digit (n : N) : ascii :=
  if (n <? 10)%N then ascii_of_N (48 + n) else ascii_of_N (87 + n).

(** With [ensure_ascii], every character outside U+0020 to U+007E is
    written as an escape. *)
Definition escape_char (c : ascii) : string :=
  if (c =? quote)%char then String "\" (String quote EmptyString)
  else if (c =? "\")%char then "\\"
  else if (c =? "010")%char then "\n"
  else if (c =? "013")%char then "\r"
  else if (c =? "009")%char then "\t"
  else if (c =? "008")%char then "\b"
  else if (c =? "012")%char then "\f"
  else if Str.between 32 126 c then String c EmptyString
  else "\u00" ++ String (hex_digit (Str.code c / 16))
                   (String (hex_digit (Str.code c mod 16)) EmptyString).

Fixpoint escape (s : string) : string :=
  match s with
  | EmptyString => EmptyString
  | String c s' => escape_char c ++ escape s'
  end.

Definition encode_str (s : string) : string :=
  String quote (escape s ++ String quote EmptyString).

Fixpoint spaces (n : nat) : string :=
  match n with
  | O => EmptyString
  | S n' => String " " (spaces n')
  end.

Definition newline_indent (level : nat) : string :=
  String "010" (spaces (2 * level)).

Definition decimal (z : Z) : string :=
  DecimalString.NilZero.string_of_int (Z.to_int z).

(** The text of [v] at nesting depth [level].  A float is written as the
    text it was read from. *)
Fixpoint encode (level : nat) (v : json) : string :=
  match v with
  | JNull => "null"
  | JBool true => "true"
  | JBool false => "false"
  | JInt z => decimal z
  | JFloat lexeme => lexeme
  | JStr s => encode_str s
  | JList [] => "[]"
  | JList items =>
      "[" ++ newline_indent (S level)
      ++ String.concat ("," ++ newline_indent (S level))
           (map (encode (S level)) items)
      ++ newline_indent level ++ "]"
  | JDict [] => "{}"
  | JDict items =>
      "{" ++ newline_indent (S level)
      ++ String.concat ("," ++ newline_indent (S level))
           (map (fun kv => encode_str (fst kv) ++ ": " ++ encode (S level) (snd kv))
                items)
      ++ newline_indent level ++ "}"
  end.

Definition dumps (v : json) : string := encode 0 v.

(** *** [json.load(f)] *)

Definition is_ws (c : ascii) : bool :=
  (c =? " ")%char || (c =? "009")%char || (c =? "010")%char || (c =? "013")%char.

Fixpoint skip_ws (s : string) : string :=
  match s with
  | String c s' => if is_ws c then skip_ws s' else s
  | EmptyString => EmptyString
  end.

Definition hex_value (c : ascii) : option N :=
  if Str.between 48 57 c then Some (Str.code c - 48)%N
  else if Str.between 97 102 c then Some (Str.code c - 87)%N
  else if Str.between 65 70 c then Some (Str.code c - 55)%N
  else None.

Definition hex4 (a b c d : ascii) : option N :=
  match hex_value a, hex_value b, hex_value c, hex_value d with
  | Some x, Some y, Some z, Some w => Some (((x * 16 + y) * 16 + z) * 16 + w)%N
  | _, _, _, _ => None
  end.

Definition unescape (e : ascii) : option ascii :=
  if (e =? quote)%char then Some quote
  else if (e =? "\")%char then Some "\"%char
  else if (e =? "/")%char then Some "/"%char
  else if (e =? "b")%char then Some "008"%char
  else if (e =? "f")%char then Some "012"%char
  else if (e =? "n")%char then Some "010"%char
  else if (e =? "r")%char then Some "013"%char
  else if (e =? "t")%char then Some "009"%char
  else None.

Definition push (c : ascii) (r : option (string * string)) : option (string * string) :=
  match r with
  | Some (s, rest) => Some (String c s, rest)
  | None => None
  end.

(** The string whose opening quote has been read: its value and the text
    after its closing quote.  A raw control character is refused (the
    decoder is strict).  An escape [\uXXXX] above [\u00ff] names a character
    the model does not have, and has no value here. *)
Fixpoint scanstring (s : string) : option (string * string) :=
  match s with
  | EmptyString => None
  | String c rest =>
      if (c =? quote)%char then Some (EmptyString, rest)
      else if (c =? "\")%char then
        match rest with
        | String "u" (String h1 (String h2 (String h3 (String h4 rest')))) =>
            match hex4 h1 h2 h3 h4 with
            | Some n =>
                if (n <? 256)%N then push (ascii_of_N n) (scanstring rest')
                else None
            | None => None
            end
        | String e rest' =>
            match unescape e with
            | Some ch => push ch (scanstring rest')
            | None => None
            end
        | EmptyString => None
        end
      else if (Str.code c <? 32)%N then None
      else push c (scanstring rest)
  end.

Definition is_digit (c : ascii) : bool := Str.between 48 57 c.

Fixpoint take_digits (s : string) : string * string :=
  match s with
  | String c s' =>
      if is_digit c then
        let (ds, rest) := take_digits s' in (String c ds, rest)
      else (EmptyString, s)
  | EmptyString => (EmptyString, EmptyString)
  end.

Fixpoint digits_value (acc : Z) (ds : string) : Z :=
  match ds with
  | EmptyString => acc
  | String c ds' => digits_value (10 * acc + Z.of_N (Str.code c - 48)) ds'
  end.

(** The integer part of a number: an optional minus sign, then either a
    single 0 or a digit from 1 to 9 followed by any digits. *)
Definition scan_int (s : string) : option (string * string) :=
  let (sign, s1) :=
    match s with
    | String "-" r => ("-", r)
    | _ => (EmptyString, s)
    end in
  match s1 with
  | String d r =>
      if (d =? "0")%char then Some (sign ++ "0", r)
      else if is_digit d then
        let (ds, rest) := take_digits r in Some (sign ++ String d ds, rest)
      else None
  | EmptyString => None
  end.

(** The fraction, a point and at least one digit, when there is one. *)
Definition scan_frac (s : string) : string * string :=
  match s with
  | String "." r =>
      match take_digits r with
      | (EmptyString, _) => (EmptyString, s)
      | (ds, rest) => (String "." ds, rest)
      end
  | _ => (EmptyString, s)
  end.

(** The exponent, [e] or [E], an optional sign and at least one digit,
    when there is one. *)
Definition scan_exp (s : string) : string * string :=
  match s with
  | String e r =>
      if (e =? "e")%char || (e =? "E")%char then
        let (sign, r1) :=
          match r with
          | String "+" r1 => ("+", r1)
          | String "-" r1 => ("-", r1)
          | _ => (EmptyString, r)
          end in
        match take_digits r1 with
        | (EmptyString, _) => (EmptyString, s)
        | (ds, rest) => (String e (sign ++ ds), rest)
        end
      else (EmptyString, s)
  | EmptyString => (EmptyString, s)
  end.

Definition int_value (lexeme : string) : Z :=
  match lexeme with
  | String "-" ds => - digits_value 0 ds
  | ds => digits_value 0 ds
  end.

Definition scan_number (s : string) : option (json * string) :=
  match scan_int s with
  | Some (int_part, rest) =>
      let (frac, rest1) := scan_frac rest in
      let (exp, rest2) := scan_exp rest1 in
      match frac, exp with
      | EmptyString, EmptyString => Some (JInt (int_value int_part), rest2)
      | _, _ => Some (JFloat (int_part ++ frac ++ exp), rest2)
      end
  | None => None
  end.

(** [s] without the prefix [word], when it starts with it. *)
Fixpoint after (word s : string) : option string :=
  match word, s with
  | EmptyString, _ => Some s
  | String a word', String b s' => if (a =? b)%char then after word' s' else None
  | String _ _, EmptyString => None
  end.

(** [d[k] = v] *)
Fixpoint dict_set (k : string) (v : json) (d : list (string * json))
  : list (string * json) :=
  match d with
  | [] => [(k, v)]
  | (k', v') :: d' =>
      if (k =? k')%string then (k, v) :: d' else (k', v') :: dict_set k v d'
  end.

Definition dict_of (pairs : list (string * json)) : list (string * json) :=
  fold_left (fun d kv => dict_set (fst kv) (snd kv) d) pairs [].

Definition keyword (s : string) : option (json * string) :=
  match after "NaN" s, after "Infinity" s, after "-Infinity" s with
  | Some rest, _, _ => Some (JFloat "NaN", rest)
  | _, Some rest, _ => Some (JFloat "Infinity", rest)
  | _, _, Some rest => Some (JFloat "-Infinity", rest)
  | _, _, _ => None
  end.

(** [scan_once]: the value at the start of [s] and the text after it.
    [array_items] and [object_items] read the items after the opening
    bracket, up to and with the closing one.  [fuel] bounds the nesting and
    the number of items; [loads] starts with twice the length of the text
    and two more.  (The
    recursion limit of CPython on deeply nested values and its limit on the
    number of digits of an integer are not modelled.) *)
Fixpoint scan_once (fuel : nat) (s : string) : option (json * string) :=
  match fuel with
  | O => None
  | S fuel' =>
      match s with
      | EmptyString => None
      | String c rest =>
          if (c =? quote)%char then
            match scanstring rest with
            | Some (v, rest') => Some (JStr v, rest')
            | None => None
            end
          else if (c =? "{")%char then
            match skip_ws rest with
            | String "}" rest' => Some (JDict [], rest')
            | other =>
                match object_items fuel' other with
                | Some (pairs, rest') => Some (JDict (dict_of pairs), rest')
                | None => None
                end
            end
          else if (c =? "[")%char then
            match skip_ws rest with
            | String "]" rest' => Some (JList [], rest')
            | other =>
                match array_items fuel' other with
                | Some (values, rest') => Some (JList values, rest')
                | None => None
                end
            end
          else
            match after "null" s, after "true" s, after "false" s with
            | Some rest', _, _ => Some (JNull, rest')
            | _, Some rest', _ => Some (JBool true, rest')
            | _, _, Some rest' => Some (JBool false, rest')
            | _, _, _ =>
                match scan_number s with
                | Some r => Some r
                | None => keyword s
                end
            end
      end
  end

with array_items (fuel : nat) (s : string) : option (list json * string) :=
  match fuel with
  | O => None
  | S fuel' =>
      match scan_once fuel' s with
      | Some (value, rest) =>
          match skip_ws rest with
          | String "]" rest' => Some ([value], rest')
          | String "," rest' =>
              match array_items fuel' (skip_ws rest') with
              | Some (values, rest'') => Some (value :: values, rest'')
              | None => None
              end
          | _ => None
          end
      | None => None
      end
  end

with object_items (fuel : nat) (s : string)
  : option (list (string * json) * string) :=
  match fuel with
  | O => None
  | S fuel' =>
      match s with
      | String c rest =>
          if (c =? quote)%char then
            match scanstring rest with
            | Some (key, rest1) =>
                match skip_ws rest1 with
                | String ":" rest2 =>
                    match scan_once fuel' (skip_ws rest2) with
                    | Some (value, rest3) =>
                        match skip_ws rest3 with
                        | String "}" rest' => Some ([(key, value)], rest')
                        | String "," rest' =>
                            match object_items fuel' (skip_ws rest') with
                            | Some (pairs, rest'') =>
                                Some ((key, value) :: pairs, rest'')
                            | None => None
                            end
                        | _ => None
                        end
                    | None => None
                    end
                | _ => None
                end
            | None => None
            end
          else None
      | EmptyString => None
      end
  end.

(** [json.loads(s)]: one value, with white space around it and nothing
    else; [None] when it raises. *)
Definition loads (s : string) : option json :=
  match scan_once (2 * String.length s + 2) (skip_ws s) with
  | Some (v, rest) =>
      match skip_ws rest with
      | EmptyString => Some v
      | String _ _ => None
      end
  | None => None
  end.

End Json.

(** ** The rule store *)

(** The state of [rules.json]: no such file, bytes that do not decode as
    UTF-8, or a text. *)
Inductive file : Type :=
| Absent
| Undecodable
| Text (s : string).

Definition DEFAULT_RULES : list json :=
  map JStr
    [ "ddos"; "exploit"; "zero-day"; "backdoor"; "rootkit";
      "trojan"; "password cracking"; "brute-force"; "bypass security";
      "unauthorized"; "how to hack"; "delete data" ].

(** [RULES_PATH.exists()] *)
Definition file_exists (disk : file) : bool :=
  match disk with
  | Absent => false
  | _ => true
  end.

(** [json.load(f)] on the file opened for reading; [None] when opening,
    decoding or parsing raises. *)
Definition json_load (disk : file) : option json :=
  match disk with
  | Text s => Json.loads s
  | Absent | Undecodable => None
  end.

Definition save_rules (rules_list : list json) (disk : file) : file :=
  Text (Json.dumps (JList rules_list)).

(** [load_rules()]: the list returned and the file it leaves. *)
Definition load_rules (disk : file) : list json * file :=
  let disk := if file_exists disk then disk else save_rules DEFAULT_RULES disk in
  match json_load disk with
  | Some (JList rules) => (rules, disk)
  | _ => (DEFAULT_RULES, save_rules DEFAULT_RULES disk)
  end.

(** ** The admin routes *)

(** [int(s)] for a [str]: white space around an optional sign and decimal
    digits, where single underscores may separate digits; [None] is
    [ValueError].  (The limit of CPython 3.11 on the number of digits is not
    modelled.) *)
Module PyInt.

Definition is_space (c : ascii) : bool :=
  Str.between 9 13 c || (Str.code c =? 32)%N
  || (Str.code c =? 133)%N || (Str.code c =? 160)%N.

Fixpoint skip_space (s : string) : string :=
  match s with
  | String c s' => if is_space c then skip_space s' else s
  | EmptyString => EmptyString
  end.

Fixpoint digits (acc : Z) (after_underscore : bool) (s : string)
  : option (Z * string) :=
  match s with
  | String c s' =>
      if Json.is_digit c then
        digits (10 * acc + Z.of_N (Str.code c - 48)) false s'
      else if (c =? "_")%char then
        if after_underscore then None else digits acc true s'
      else if after_underscore then None else Some (acc, s)
  | EmptyString => if after_underscore then None else Some (acc, EmptyString)
  end.

Definition unsigned (s : string) : option Z :=
  match s with
  | String c _ =>
      if Json.is_digit c then
        match digits 0 false s with
        | Some (n, rest) =>
            match skip_space rest with
            | EmptyString => Some n
            | String _ _ => None
            end
        | None => None
        end
      else None
  | EmptyString => None
  end.

Definition int (s : string) : option Z :=
  match skip_space s with
  | String "-" s' => option_map Z.opp (unsigned s')
  | String "+" s' => unsigned s'
  | s' => unsigned s'
  end.

End PyInt.

(** What [flash] is called with. *)
Inductive message : Type :=
| EmptyPattern                 (* "Empty pattern cannot be added." *)
| Added (pattern : string)     (* f"Added rule: {pattern}" *)
| InvalidIndex                 (* "Invalid index." *)
| Removed (removed : json)     (* f"Removed rule: {removed}" *)
| IndexOutOfRange              (* "Index out of range." *)
| Reloaded                     (* "Rules reloaded from disk." *)
| ResetDone.                   (* "Rules reset to default." *)

(** Every rule route answers [redirect(url_for("admin_index"))]. *)
Inductive response : Type :=
| RedirectAdminIndex.

(** The state the routes act on: the file, the module global
    [BLOCKED_PATTERNS], the [is_admin] entry of the session and the flashed
    messages, oldest first. *)
Record world : Type := {
  disk : file;
  BLOCKED_PATTERNS : list json;
  is_admin : bool;
  flashed : list message
}.

Definition is_admin_logged_in (w : world) : bool := is_admin w.

Definition flash (m : message) (w : world) : world :=
  {| disk := disk w; BLOCKED_PATTERNS := BLOCKED_PATTERNS w;
     is_admin := is_admin w; flashed := (flashed w ++ [m])%list |}.

Definition set_disk (d : file) (w : world) : world :=
  {| disk := d; BLOCKED_PATTERNS := BLOCKED_PATTERNS w;
     is_admin := is_admin w; flashed := flashed w |}.

(** An assignment to the global, in a function that declares it [global]. *)
Definition set_BLOCKED_PATTERNS (rules : list json) (w : world) : world :=
  {| disk := disk w; BLOCKED_PATTERNS := rules;
     is_admin := is_admin w; flashed := flashed w |}.

(** [rules.pop(idx)] for [0 <= idx < len(rules)]: the element and the list
    without it. *)
Definition pop (idx : nat) (rules : list json) : json * list json :=
  (nth idx rules JNull, (firstn idx rules ++ skipn (S idx) rules)%list).

(** [admin_add_rule], with the [pattern] field of the form. *)
Definition admin_add_rule (form_pattern : option string) (w : world)
  : response * world :=
  if negb (is_admin_logged_in w) then (RedirectAdminIndex, w)
  else
    let pattern :=
      Str.strip (match form_pattern with
                 | Some p => p
                 | None => EmptyString
                 end) in
    match pattern with
    | EmptyString => (RedirectAdminIndex, flash EmptyPattern w)
    | String _ _ =>
        let (rules, d1) := load_rules (disk w) in
        let rules := (rules ++ [JStr pattern])%list in
        let d2 := save_rules rules d1 in
        let (loaded, d3) := load_rules d2 in
        let w := set_BLOCKED_PATTERNS loaded (set_disk d3 w) in
        (RedirectAdminIndex, flash (Added pattern) w)
    end.

(** [admin_remove_rule], with the [index] field of the form.  The function
    has no [global BLOCKED_PATTERNS] declaration: its assignment
    [BLOCKED_PATTERNS = load_rules()] binds a local name, and the module
    global keeps its value. *)
Definition admin_remove_rule (form_index : option string) (w : world)
  : response * world :=
  if negb (is_admin_logged_in w) then (RedirectAdminIndex, w)
  else
    match PyInt.int (match form_index with
                     | Some i => i
                     | None => "-1"
                     end) with
    | None => (RedirectAdminIndex, flash InvalidIndex w)
    | Some idx =>
        let (rules, d1) := load_rules (disk w) in
        if ((0 <=? idx) && (idx <? Z.of_nat (List.length rules)))%Z then
          let (removed, rules) := pop (Z.to_nat idx) rules in
          let d2 := save_rules rules d1 in
          let (local_BLOCKED_PATTERNS, d3) := load_rules d2 in
          (RedirectAdminIndex, flash (Removed removed) (set_disk d3 w))
        else
          (RedirectAdminIndex, flash IndexOutOfRange (set_disk d1 w))
    end.

(** [admin_reload_rules] *)
Definition admin_reload_rules (w : world) : response * world :=
  if negb (is_admin_logged_in w) then (RedirectAdminIndex, w)
  else
    let (loaded, d1) := load_rules (disk w) in
    let w := set_BLOCKED_PATTERNS loaded (set_disk d1 w) in
    (RedirectAdminIndex, flash Reloaded w).

(** [admin_reset_rules] *)
Definition admin_reset_rules (w : world) : response * world :=
  if negb (is_admin_logged_in w) then (RedirectAdminIndex, w)
  else
    let d1 := save_rules DEFAULT_RULES (disk w) in
    let (loaded, d2) := load_rules d1 in
    let w := set_BLOCKED_PATTERNS loaded (set_disk d2 w) in
    (RedirectAdminIndex, flash ResetDone w).

(** The world after the module is imported: [BLOCKED_PATTERNS = load_rules()]. *)
Definition startup (d : file) : world :=
  let (loaded, d1) := load_rules d in
  {| disk := d1; BLOCKED_PATTERNS := loaded; is_admin := false; flashed := [] |}.

(** ** The notions the specification uses *)

(** Two texts that differ in the case of letters only. *)
Inductive same_letters : string -> string -> Prop :=
| same_empty : same_letters EmptyString EmptyString
| same_char (a b : ascii) (s t : string) :
    Str.lower_char a = Str.lower_char b ->
    same_letters s t ->
    same_letters (String a s) (String b t).

(** [r] is contained in [T] as a substring, the case of letters ignored. *)
Definition ci_substring (r T : string) : Prop :=
  exists pre mid post, T = pre ++ mid ++ post /\ same_letters mid r.

(** What deciding one rule [r] on the text [T] means: a rule without the
    marker is a case-insensitive substring; a marked rule is its pattern
    searched in the lower-cased text, or, when the pattern does not compile,
    the whole rule as a substring. *)
Definition rule_matches (re : regex_engine) (r T : string) : Prop :=
  if Str.startswith r "re:" then
    match compile re (Str.slice_from 3 r) false with
    | Some c => search re c (Str.lower T) = true
    | None => Str.contains (Str.lower T) (Str.lower r) = true
    end
  else ci_substring r T.

(** The verdict of the loop body on a [str] rule. *)
Definition rule_verdict (re : regex_engine) (p t : string) : bool :=
  if Str.startswith p "re:" then
    match re_search re (Str.slice_from 3 p) t with
    | Some found => found
    | None => Str.contains t (Str.lower p)
    end
  else Str.contains t (Str.lower p).

(** The rule list the file holds, when it holds one. *)
Definition persisted (d : file) : option (list json) :=
  match json_load d with
  | Some (JList rules) => Some rules
  | _ => None
  end.


(** The file that holds the default rules. *)
Definition default_file : file := Text (Json.dumps (JList DEFAULT_RULES)).

(** The [index] field as [admin_remove_rule] reads it. *)
Definition index_text (form_index : option string) : string :=
  match form_index with
  | Some i => i
  | None => "-1"
  end.

(** An index field that is not a number, or is a number outside
    [0 <= idx < count]. *)
Definition out_of_range (form_index : option string) (count : nat) : Prop :=
  match PyInt.int (index_text form_index) with
  | None => True
  | Some idx => (idx < 0 \/ Z.of_nat count <= idx)%Z
  end.

(** A pattern field that is missing, empty or all white space. *)
Definition blank (form_pattern : option string) : Prop :=
  match form_pattern with
  | Some p => Str.all_chars Str.isspace p = true
  | None => True
  end.

(** The text [json.dump] writes for a non-empty list of [str], from its
    first item on, followed by [rest]. *)
Fixpoint items_text (r : string) (R : list string) (rest : string) : string :=
  Json.encode_str r ++
  match R with
  | [] => String "010" (String "]" rest)
  | r' :: R' =>
      String "," (String "010" (String " " (String " " (items_text r' R' rest))))
  end.

(** ** The chat route *)

(** What [generator] or [generate_text] ends with: the text, or an exception,
    of which [chat_api] uses the message only. *)
Inductive generation : Type :=
| Produced (text : string)
| GenerationError (e : string).

(** The exceptions that leave [chat_api]. *)
Inductive exception : Type :=
| FromCheck (e : exn)       (* raised by [is_malicious] *)
| TypeError                 (* [in] or an index on a value that has none *)
| KeyError
| NoStrip.                  (* AttributeError: the prompt has no [strip] *)

Inductive chat_response : Type :=
| MissingPrompt                 (* 400, "Please send JSON with a 'prompt' field." *)
| RefusedInput                  (* 403, "[REFUSED] Your request appears to contain ..." *)
| GenerationFailed (e : string) (* 500, f"Model generation failed: {e}" *)
| RefusedOutput                 (* 403, "[REFUSED] Generated content may be unsafe. ..." *)
| Answer (answer : string).     (* 200 *)

Inductive served : Type :=
| Respond (r : chat_response)
| Unhandled (e : exception).

Definition newline : string := String "010" EmptyString.

Definition SYSTEM_INSTRUCTION : string :=
  "You are CYOAI, an educational ethical-hacking assistant. Provide defensive, legal, "
  ++ "and instructional guidance and code examples suitable for learning in a private lab. "
  ++ "If the user asks for illegal or weaponized steps, refuse and provide safe alternatives "
  ++ "and learning resources.".

(** [text.split(sep, 1)[1]] for a [sep] that is not empty and occurs in
    [text]: what follows the first occurrence. *)
Fixpoint after_first (sep text : string) : option string :=
  if Str.startswith text sep then Some (Str.slice_from (String.length sep) text)
  else
    match text with
    | EmptyString => None
    | String _ text' => after_first sep text'
    end.

(** [d.get(k)] on the items of a [dict]. *)
Fixpoint dict_get (k : string) (items : list (string * json)) : option json :=
  match items with
  | [] => None
  | (k', v) :: items' => if (k =? k')%string then Some v else dict_get k items'
  end.

Section Chat.

Variable re : regex_engine.

(** Whether [float(lexeme)] is not zero. *)
Variable float_truthy : string -> bool.

(** The text-generation pipeline, called with the prompt and
    [max_new_tokens]. *)
Variable generator : string -> Z -> generation.

(** [generate_text(prompt, max_tokens)]; [split] refuses an empty
    separator with a [ValueError]. *)
Definition generate_text (prompt : string) (max_tokens : Z) : generation :=
  match generator prompt max_tokens with
  | GenerationError e => GenerationError e
  | Produced text =>
      if Str.contains text prompt then
        match prompt with
        | EmptyString => GenerationError "empty separator"
        | String _ _ =>
            match after_first prompt text with
            | Some rest => Produced (Str.strip rest)
            | None => GenerationError "list index out of range"
            end
        end
      else Produced (Str.strip text)
  end.

(** [bool(v)] *)
Definition truthy (v : json) : bool :=
  match v with
  | JNull => false
  | JBool b => b
  | JInt z => negb (z =? 0)%Z
  | JFloat lexeme => float_truthy lexeme
  | JStr s => negb (s =? EmptyString)%string
  | JList items => match items with [] => false | _ => true end
  | JDict items => match items with [] => false | _ => true end
  end.

(** ["prompt" in data]; [None] is the [TypeError] of a value that is not
    iterable. *)
Definition has_prompt (data : json) : option bool :=
  match data with
  | JDict items => Some (existsb (fun kv => ("prompt" =? fst kv)%string) items)
  | JList items =>
      Some (existsb (fun v => match v with
                              | JStr s => ("prompt" =? s)%string
                              | _ => false
                              end) items)
  | JStr s => Some (Str.contains s "prompt")
  | JNull | JBool _ | JInt _ | JFloat _ => None
  end.

Definition full_prompt (prompt : string) : string :=
  SYSTEM_INSTRUCTION ++ newline ++ newline ++ "User: " ++ prompt ++ newline
  ++ "CYOAI (concise, educational):".

(** [chat_api], with [data] the value [request.get_json(force=True)]
    returned and the global [BLOCKED_PATTERNS]. *)
Definition chat_api (data : json) (BLOCKED_PATTERNS : list json) : served :=
  if negb (truthy data) then Respond MissingPrompt
  else
    match has_prompt data with
    | None => Unhandled TypeError
    | Some false => Respond MissingPrompt
    | Some true =>
        match data with
        | JDict items =>
            match dict_get "prompt" items with
            | Some (JStr p) =>
                let prompt := Str.strip p in
                match is_malicious re BLOCKED_PATTERNS prompt with
                | Raise e => Unhandled (FromCheck e)
                | Ok true => Respond RefusedInput
                | Ok false =>
                    match generate_text (full_prompt prompt) 300 with
                    | GenerationError e => Respond (GenerationFailed e)
                    | Produced answer =>
                        match is_malicious re BLOCKED_PATTERNS answer with
                        | Raise e => Unhandled (FromCheck e)
                        | Ok true => Respond RefusedOutput
                        | Ok false => Respond (Answer answer)
                        end
                    end
                end
            | Some _ => Unhandled NoStrip
            | None => Unhandled KeyError
            end
        | _ => Unhandled TypeError
        end
    end.

End Chat.

(** ** Logging in and out *)

(** What [admin_login] and [admin_logout] flash.  These routes return the
    message beside the world; the [flashed] list of the world keeps the
    messages of the rule routes. *)
Inductive notice : Type :=
| PasswordNotSet        (* "Admin password not set on server." *)
| LoggedIn              (* "Logged in." *)
| IncorrectPassword     (* "Incorrect password." *)
| LoggedOut.            (* "Logged out." *)

Definition set_is_admin (b : bool) (w : world) : world :=
  {| disk := disk w; BLOCKED_PATTERNS := BLOCKED_PATTERNS w;
     is_admin := b; flashed := flashed w |}.

(** [admin_login], with the configured [ADMIN_PASSWORD], a [str] once the
    module has been imported, and the [password] field of the form. *)
Definition admin_login (ADMIN_PASSWORD : string) (form_password : option string)
  (w : world) : response * notice * world :=
  let pw := match form_password with
            | Some p => p
            | None => EmptyString
            end in
  match ADMIN_PASSWORD with
  | EmptyString => (RedirectAdminIndex, PasswordNotSet, w)
  | String _ _ =>
      if (pw =? ADMIN_PASSWORD)%string
      then (RedirectAdminIndex, LoggedIn, set_is_admin true w)
      else (RedirectAdminIndex, IncorrectPassword, w)
  end.


(** A text without white space at either end. *)
Definition stripped (s : string) : Prop :=
  (forall c s', s = String c s' -> Str.isspace c = false)
  /\ (forall s' c, s = s' ++ String c EmptyString -> Str.isspace c = false).

(** [rules] without the element at [i]. *)
Definition without (i : nat) (R : list string) : list string :=
  (firstn i R ++ skipn (S i) R)%list.

(** The rules in memory are the rules the file holds. *)
Definition in_sync (w : world) : Prop :=
  persisted (disk w) = Some (BLOCKED_PATTERNS w).





(** * Properties *)

(** ** Strings *)

Section StrFacts.

Lemma prefix_append (p s : string) : String.prefix p (p ++ s) = true.
Proof.
  induction p as [|c p IH]; simpl.
  - now destruct s.
  - destruct (ascii_dec c c) as [_|n]; [exact IH | now elim n].
Qed.

Lemma prefix_split (p s : string) :
  String.prefix p s = true -> exists rest, s = p ++ rest.
Proof.
  revert s; induction p as [|c p IH]; intros s H.
  - now exists s.
  - destruct s as [|d s]; simpl in H; [discriminate|].
    destruct (ascii_dec c d) as [->|_]; [|discriminate].
    destruct (IH _ H) as [rest ->]. now exists rest.
Qed.

Lemma append_assoc (a b c : string) : (a ++ b) ++ c = a ++ b ++ c.
Proof. induction a as [|x a IH]; simpl; [reflexivity | now rewrite IH]. Qed.

Lemma append_empty_r (a : string) : a ++ EmptyString = a.
Proof. induction a as [|x a IH]; simpl; [reflexivity | now rewrite IH]. Qed.

Lemma length_append (a b : string) :
  String.length (a ++ b) = String.length a + String.length b.
Proof. induction a as [|x a IH]; simpl; [reflexivity | now rewrite IH]. Qed.

Lemma contains_iff (s sub : string) :
  Str.contains s sub = true <-> exists pre post, s = pre ++ sub ++ post.
Proof.
  split.
  - induction s as [|c s IH]; cbn [Str.contains]; unfold Str.startswith;
      intros H; apply orb_true_iff in H as [H|H].
    + apply prefix_split in H as [rest ->]. now exists EmptyString, rest.
    + discriminate.
    + apply prefix_split in H as [rest H]. exists EmptyString, rest. exact H.
    + destruct (IH H) as (pre & post & ->). now exists (String c pre), post.
  - intros (pre & post & ->).
    induction pre as [|c pre IH].
    + cbn [append].
      assert (P : Str.startswith (sub ++ post) sub = true) by apply prefix_append.
      destruct (sub ++ post); cbn [Str.contains]; rewrite P; reflexivity.
    + cbn [append Str.contains]. rewrite IH. apply orb_true_r.
Qed.

Lemma contains_empty (s : string) : Str.contains s EmptyString = true.
Proof. apply contains_iff. now exists EmptyString, s. Qed.

Lemma map_chars_append (f : ascii -> ascii) (a b : string) :
  Str.map_chars f (a ++ b) = Str.map_chars f a ++ Str.map_chars f b.
Proof. induction a as [|x a IH]; simpl; [reflexivity | now rewrite IH]. Qed.

Lemma map_chars_split (f : ascii -> ascii) (s x y : string) :
  Str.map_chars f s = x ++ y ->
  exists a b, s = a ++ b /\ Str.map_chars f a = x /\ Str.map_chars f b = y.
Proof.
  revert s; induction x as [|c x IH]; intros s H.
  - now exists EmptyString, s.
  - destruct s as [|d s]; simpl in H; [discriminate|].
    injection H as Hc Hs. destruct (IH _ Hs) as (a & b & -> & Ha & Hb).
    exists (String d a), b. simpl. now rewrite Hc, Ha.
Qed.

Lemma same_letters_lower (a b : string) :
  same_letters a b <-> Str.lower a = Str.lower b.
Proof.
  split.
  - induction 1 as [|x y s t Hc _ IH]; [reflexivity|].
    unfold Str.lower in *; simpl. now rewrite Hc, IH.
  - revert b; induction a as [|x a IH]; intros [|y b] H;
      try discriminate; [constructor|].
    unfold Str.lower in *; simpl in H. injection H as Hc Hs.
    constructor; auto.
Qed.

Lemma literal_contains_iff (r T : string) :
  Str.contains (Str.lower T) (Str.lower r) = true <-> ci_substring r T.
Proof.
  rewrite contains_iff. split.
  - intros (pre & post & H).
    apply map_chars_split in H as (a & b & -> & Ha & Hb).
    apply map_chars_split in Hb as (m & c & -> & Hm & Hc).
    exists a, m, c. split; [reflexivity|]. now apply same_letters_lower.
  - intros (pre & mid & post & -> & H). apply same_letters_lower in H.
    exists (Str.lower pre), (Str.lower post).
    unfold Str.lower in *. now rewrite !map_chars_append, H.
Qed.

Lemma lower_char_idempotent (c : ascii) :
  Str.lower_char (Str.lower_char c) = Str.lower_char c.
Proof. destruct c as [[] [] [] [] [] [] [] []]; reflexivity. Qed.

Lemma lower_idempotent (s : string) : Str.lower (Str.lower s) = Str.lower s.
Proof.
  unfold Str.lower. induction s as [|c s IH]; simpl; [reflexivity|].
  now rewrite lower_char_idempotent, IH.
Qed.

End StrFacts.

(** ** The matcher *)

Section MatcherFacts.

Variable re : regex_engine.

Lemma rule_blocks_str (p t : string) :
  rule_blocks re (JStr p) t = Ok (rule_verdict re p t).
Proof.
  unfold rule_blocks, rule_verdict.
  destruct (Str.startswith p "re:"); [|reflexivity].
  now destruct (re_search re (Str.slice_from 3 p) t).
Qed.

Lemma first_match_strings (R : list string) (t : string) :
  first_match re (map JStr R) t = Ok (existsb (fun p => rule_verdict re p t) R).
Proof.
  induction R as [|p R IH]; [reflexivity|].
  cbn [map first_match existsb]. rewrite rule_blocks_str.
  destruct (rule_verdict re p t); [reflexivity | exact IH].
Qed.

Lemma rule_verdict_matches (r T : string) :
  rule_verdict re r (Str.lower T) = true <-> rule_matches re r T.
Proof.
  unfold rule_verdict, rule_matches, re_search.
  destruct (Str.startswith r "re:").
  - destruct (compile re (Str.slice_from 3 r) false); reflexivity.
  - apply literal_contains_iff.
Qed.

Lemma is_malicious_strings (R : list string) (T : string) :
  is_malicious re (map JStr R) T
  = Ok (existsb (fun p => rule_verdict re p (Str.lower T)) R).
Proof. unfold is_malicious. apply first_match_strings. Qed.

End MatcherFacts.

(** ** The text of [rules.json] *)

Section JsonFacts.

Lemma scanstring_escape_char (c : ascii) (rest : string) :
  Json.scanstring (Json.escape_char c ++ rest)
  = Json.push c (Json.scanstring rest).
Proof. destruct c as [[] [] [] [] [] [] [] []]; reflexivity. Qed.

Lemma scanstring_escape (s rest : string) :
  Json.scanstring (Json.escape s ++ String Json.quote rest) = Some (s, rest).
Proof.
  induction s as [|c s IH]; [reflexivity|].
  cbn [Json.escape]. rewrite append_assoc, scanstring_escape_char, IH.
  reflexivity.
Qed.

Lemma encode_str_append (s rest : string) :
  Json.encode_str s ++ rest
  = String Json.quote (Json.escape s ++ String Json.quote rest).
Proof. unfold Json.encode_str. cbn [append]. now rewrite append_assoc. Qed.

Lemma scan_once_str (fuel : nat) (s rest : string) :
  Json.scan_once (S fuel) (Json.encode_str s ++ rest) = Some (JStr s, rest).
Proof.
  rewrite encode_str_append. cbn [Json.scan_once].
  change (Json.quote =? Json.quote)%char with true. cbv iota.
  now rewrite scanstring_escape.
Qed.


Lemma concat_items (r : string) (R : list string) :
  String.concat ("," ++ Json.newline_indent 1)
    (map (Json.encode 1) (map JStr (r :: R)))
  ++ Json.newline_indent 0 ++ "]"
  = items_text r R EmptyString.
Proof.
  revert r; induction R as [|r' R IH]; intros r.
  - reflexivity.
  - specialize (IH r'). cbn [map] in IH |- *.
    cbn [String.concat items_text]. rewrite <- IH.
    cbn [Json.encode]. rewrite !append_assoc. reflexivity.
Qed.

Lemma dumps_strings (r : string) (R : list string) :
  Json.dumps (JList (map JStr (r :: R)))
  = String "[" (String "010" (String " " (String " "
      (items_text r R EmptyString)))).
Proof.
  rewrite <- concat_items. reflexivity.
Qed.

Lemma items_text_quote (r : string) (R : list string) (rest : string) :
  exists tail, items_text r R rest = String Json.quote tail.
Proof. destruct R; cbn [items_text]; rewrite encode_str_append; eauto. Qed.

Lemma array_items_eq (fuel : nat) (s : string) :
  Json.array_items (S fuel) s
  = match Json.scan_once fuel s with
    | Some (value, rest) =>
        match Json.skip_ws rest with
        | String "]" rest' => Some ([value], rest')
        | String "," rest' =>
            match Json.array_items fuel (Json.skip_ws rest') with
            | Some (values, rest'') => Some (value :: values, rest'')
            | None => None
            end
        | _ => None
        end
    | None => None
    end.
Proof. reflexivity. Qed.

Lemma skip_indent (tail : string) :
  Json.skip_ws (String "010" (String " " (String " " (String Json.quote tail))))
  = String Json.quote tail.
Proof. reflexivity. Qed.

Lemma array_items_strings (R : list string) :
  forall (r : string) (fuel : nat) (rest : string),
    List.length R < fuel ->
    Json.array_items (S fuel) (items_text r R rest)
    = Some (map JStr (r :: R), rest).
Proof.
  induction R as [|r' R IH]; intros r fuel rest Hf;
    (destruct fuel as [|fuel]; [inversion Hf|]);
    rewrite array_items_eq; cbn [items_text]; rewrite scan_once_str.
  - reflexivity.
  - destruct (items_text_quote r' R rest) as [tail E].
    change (Json.skip_ws (String "," ?x)) with (String "," x). cbv iota.
    rewrite E, skip_indent, <- E.
    rewrite IH by (cbn [List.length] in Hf; lia). reflexivity.
Qed.

Lemma length_items_text (r : string) (R : list string) (rest : string) :
  List.length R <= String.length (items_text r R rest).
Proof.
  revert r; induction R as [|r' R IH]; intros r; cbn [List.length]; [lia|].
  cbn [items_text]. rewrite length_append. cbn [String.length].
  specialize (IH r'). lia.
Qed.

Lemma scan_once_array (fuel : nat) (rest tail : string) :
  Json.skip_ws rest = String Json.quote tail ->
  Json.scan_once (S fuel) (String "[" rest)
  = match Json.array_items fuel (String Json.quote tail) with
    | Some (values, rest') => Some (JList values, rest')
    | None => None
    end.
Proof. intros E. cbn [Json.scan_once]. cbn -[Json.array_items Json.skip_ws]. rewrite E. reflexivity. Qed.

Lemma loads_dumps_strings (R : list string) :
  Json.loads (Json.dumps (JList (map JStr R))) = Some (JList (map JStr R)).
Proof.
  destruct R as [|r R]; [reflexivity|].
  rewrite dumps_strings. unfold Json.loads.
  destruct (items_text_quote r R EmptyString) as [tail E].
  pose proof (length_items_text r R EmptyString) as L.
  set (text := items_text r R EmptyString) in *.
  cbn [String.length].
  replace (2 * S (S (S (S (String.length text)))) + 2)
    with (S (S (2 * String.length text + 8))) by lia.
  change (Json.skip_ws (String "[" ?x)) with (String "[" x).
  rewrite (scan_once_array _ _ tail) by (rewrite E; apply skip_indent).
  rewrite <- E. unfold text.
  rewrite array_items_strings by (fold text; lia).
  reflexivity.
Qed.

End JsonFacts.

(** ** Claims on the matcher *)



(** C5.  For every list of string rules and every text the check returns a
    verdict and raises nothing; a marked rule whose pattern does not compile
    is decided by substring matching of the raw rule text, and the rules
    after it are evaluated as usual. *)
Theorem C5_check_never_raises
  (re : regex_engine) (R : list string) (T : string) :
  (exists b, is_malicious re (map JStr R) T = Ok b)
  /\ (forall p, compile re p false = None ->
        is_malicious re (map JStr (("re:" ++ p) :: R)) T
        = if Str.contains (Str.lower T) (Str.lower ("re:" ++ p))
          then Ok true
          else is_malicious re (map JStr R) T).
Proof.
  split.
  - rewrite is_malicious_strings. eexists; reflexivity.
  - intros p Hp. rewrite !is_malicious_strings. cbn [existsb].
    unfold rule_verdict at 1, re_search. cbn [append].
    replace (Str.startswith (String "r" (String "e" (String ":" p))) "re:")
      with true by (symmetry; apply (prefix_append "re:" p)).
    cbn [Str.slice_from]. rewrite Hp.
    now destruct (Str.contains _ _).
Qed.

Lemma C5_witness :
  is_malicious Re.engine (map JStr ["re:("; "how to hack"]) "How to hack a box"
  = Ok true.
Proof.
  exact (eq_trans
           (proj2 (C5_check_never_raises Re.engine ["how to hack"]
                     "How to hack a box") "(" eq_refl)
           eq_refl).
Defined.

(** C10.  When the active rule list holds the empty string as a rule, the
    check returns true for every text; with rules that are not strings in the
    list as well, it still never returns false. *)
Theorem C10_empty_rule_blocks_every_text (re : regex_engine) (T : string) :
  (forall R : list string,
      In EmptyString R -> is_malicious re (map JStr R) T = Ok true)
  /\ (forall pats : list json,
        In (JStr EmptyString) pats -> is_malicious re pats T <> Ok false).
Proof.
  split.
  - intros R H. rewrite is_malicious_strings. f_equal.
    apply existsb_exists. exists EmptyString. split; [exact H|].
    unfold rule_verdict. cbn. apply contains_empty.
  - intros pats. unfold is_malicious.
    induction pats as [|pat pats IH]; intros H; [destruct H|].
    cbn [first_match]. destruct H as [->|H].
    + rewrite rule_blocks_str. unfold rule_verdict. cbn.
      rewrite contains_empty. discriminate.
    + destruct (rule_blocks re pat (Str.lower T)) as [[|]|e];
        [discriminate | now apply IH | discriminate].
Qed.

Lemma C10_witness :
  is_malicious Re.engine (map JStr ["ddos"; EmptyString]) "good morning"
  = Ok true.
Proof.
  apply (C10_empty_rule_blocks_every_text Re.engine "good morning").
  simpl; auto.
Defined.




(** ** The rule store *)

Section StoreFacts.

Lemma save_rules_default (d : file) : save_rules DEFAULT_RULES d = default_file.
Proof. reflexivity. Qed.

Lemma json_load_save_strings (R : list string) (d : file) :
  json_load (save_rules (map JStr R) d) = Some (JList (map JStr R)).
Proof. unfold save_rules, json_load. apply loads_dumps_strings. Qed.

Lemma json_load_default : json_load default_file = Some (JList DEFAULT_RULES).
Proof. rewrite <- (save_rules_default Absent). apply json_load_save_strings. Qed.

Lemma persisted_default : persisted default_file = Some DEFAULT_RULES.
Proof. unfold persisted. now rewrite json_load_default. Qed.

Lemma persisted_exists (d : file) (rules : list json) :
  persisted d = Some rules -> file_exists d = true.
Proof. destruct d; [discriminate | reflexivity | reflexivity]. Qed.

Lemma load_rules_persisted (d : file) (rules : list json) :
  persisted d = Some rules -> load_rules d = (rules, d).
Proof.
  intros H. unfold load_rules. rewrite (persisted_exists d rules H).
  unfold persisted in H.
  destruct (json_load d) as [[]|]; try discriminate. now injection H as ->.
Qed.

Lemma load_rules_not_persisted (d : file) :
  persisted d = None -> load_rules d = (DEFAULT_RULES, default_file).
Proof.
  intros H. unfold load_rules. destruct (file_exists d) eqn:X.
  - rewrite save_rules_default. unfold persisted in H.
    destruct (json_load d) as [[]|]; try reflexivity; discriminate.
  - rewrite save_rules_default, json_load_default. reflexivity.
Qed.


(** What [load_rules] leaves on the disk holds what it returned. *)
Lemma load_rules_leaves_persisted (d : file) :
  persisted (snd (load_rules d)) = Some (fst (load_rules d)).
Proof.
  destruct (persisted d) as [rules|] eqn:X.
  - rewrite (load_rules_persisted d rules X). exact X.
  - rewrite (load_rules_not_persisted d X). exact persisted_default.
Qed.

Lemma load_rules_stable (d : file) :
  load_rules (snd (load_rules d)) = load_rules d.
Proof.
  rewrite (load_rules_persisted _ _ (load_rules_leaves_persisted d)).
  now destruct (load_rules d).
Qed.

End StoreFacts.

(** ** Claims on the rule store *)






(** C7.  For every sequence of strings [R], [save_rules(R)] followed by
    [load_rules()] returns [R], and leaves the file that was written. *)
Theorem C7_save_then_load_round_trip (R : list string) (d : file) :
  load_rules (save_rules (map JStr R) d)
  = (map JStr R, save_rules (map JStr R) d).
Proof.
  apply load_rules_persisted. unfold persisted.
  now rewrite json_load_save_strings.
Qed.

(** ** The admin routes *)

Section AdminFacts.

Lemma lstrip_blank (p : string) :
  Str.all_chars Str.isspace p = true -> Str.lstrip p = EmptyString.
Proof.
  unfold Str.all_chars. induction p as [|c p IH]; cbn; [reflexivity|].
  intros H. apply andb_true_iff in H as [Hc Hp]. rewrite Hc. now apply IH.
Qed.

Lemma strip_blank (p : string) :
  Str.all_chars Str.isspace p = true -> Str.strip p = EmptyString.
Proof. intros H. unfold Str.strip. now rewrite lstrip_blank. Qed.

Lemma set_disk_same (w : world) : set_disk (disk w) w = w.
Proof. now destruct w. Qed.

Lemma flash_keeps (m : message) (w : world) :
  disk (flash m w) = disk w
  /\ BLOCKED_PATTERNS (flash m w) = BLOCKED_PATTERNS w
  /\ flashed (flash m w) = (flashed w ++ [m])%list.
Proof. repeat split. Qed.

(** [admin_remove_rule] never assigns the global. *)
Lemma admin_remove_rule_keeps_memory (form_index : option string) (w : world) :
  BLOCKED_PATTERNS (snd (admin_remove_rule form_index w)) = BLOCKED_PATTERNS w.
Proof.
  unfold admin_remove_rule.
  destruct (negb (is_admin_logged_in w)); [reflexivity|].
  destruct (PyInt.int _) as [idx|]; [|reflexivity].
  destruct (load_rules (disk w)) as [rules d1].
  destruct ((0 <=? idx)%Z && (idx <? Z.of_nat (List.length rules))%Z);
    [|reflexivity].
  destruct (pop (Z.to_nat idx) rules) as [removed rules'].
  destruct (load_rules (save_rules rules' d1)). reflexivity.
Qed.

End AdminFacts.

(** ** Claims on the admin routes *)

(** C9.  An add request whose pattern is missing, empty or all white space
    is rejected before the store is touched: the file and the rules in memory
    are unchanged, and the admin is told so. *)
Theorem C9_blank_pattern_is_rejected (form_pattern : option string) (w : world) :
  blank form_pattern ->
  disk (snd (admin_add_rule form_pattern w)) = disk w
  /\ BLOCKED_PATTERNS (snd (admin_add_rule form_pattern w)) = BLOCKED_PATTERNS w
  /\ (is_admin w = true ->
        admin_add_rule form_pattern w = (RedirectAdminIndex, flash EmptyPattern w)).
Proof.
  intros H. unfold admin_add_rule, is_admin_logged_in.
  assert (E : Str.strip (match form_pattern with
                         | Some p => p
                         | None => EmptyString
                         end) = EmptyString).
  { destruct form_pattern as [p|]; [now apply strip_blank | reflexivity]. }
  rewrite E. destruct (is_admin w); cbn [negb snd].
  - repeat split.
  - repeat split. discriminate.
Qed.

Lemma C9_witness :
  let w := {| disk := Text "[]"; BLOCKED_PATTERNS := [JStr "ddos"];
              is_admin := true; flashed := [] |} in
  admin_add_rule (Some (String " " (String "009" (String "010" " ")))) w
  = (RedirectAdminIndex, flash EmptyPattern w).
Proof.
  intros w.
  apply (C9_blank_pattern_is_rejected
           (Some (String " " (String "009" (String "010" " ")))) w);
    reflexivity.
Defined.

(** C8.  For every rule set and every removal index that is out of range
    (not a number, negative, or at least the rule count), the remove route
    leaves the rules in memory and the persisted rule set unchanged (the file
    itself, when it holds a rule list), flashes an error message and answers
    with its usual redirect. *)
Theorem C8_out_of_range_removal_changes_nothing
  (form_index : option string) (w : world) :
  is_admin w = true ->
  out_of_range form_index (List.length (fst (load_rules (disk w)))) ->
  let w' := snd (admin_remove_rule form_index w) in
  fst (admin_remove_rule form_index w) = RedirectAdminIndex
  /\ BLOCKED_PATTERNS w' = BLOCKED_PATTERNS w
  /\ fst (load_rules (disk w')) = fst (load_rules (disk w))
  /\ (forall rules, persisted (disk w) = Some rules -> disk w' = disk w)
  /\ (flashed w' = (flashed w ++ [InvalidIndex])%list
      \/ flashed w' = (flashed w ++ [IndexOutOfRange])%list).
Proof.
  intros Ha Hr w'. subst w'.
  split; [|split; [apply admin_remove_rule_keeps_memory|]].
  { unfold admin_remove_rule.
    destruct (negb (is_admin_logged_in w)); [reflexivity|].
    destruct (PyInt.int _) as [idx|]; [|reflexivity].
    destruct (load_rules (disk w)) as [rules d1].
    destruct ((0 <=? idx)%Z && (idx <? Z.of_nat (List.length rules))%Z);
      [|reflexivity].
    destruct (pop (Z.to_nat idx) rules) as [removed rules'].
    destruct (load_rules (save_rules rules' d1)). reflexivity. }
  unfold admin_remove_rule, is_admin_logged_in, out_of_range, index_text in *.
  rewrite Ha. cbn [negb].
  destruct (PyInt.int _) as [idx|].
  - pose proof (load_rules_stable (disk w)) as S.
    pose proof (load_rules_persisted (disk w)) as P.
    destruct (load_rules (disk w)) as [rules d1]. cbn [fst snd] in *.
    replace ((0 <=? idx)%Z && (idx <? Z.of_nat (List.length rules))%Z)
      with false
      by (symmetry; apply andb_false_iff;
          rewrite Z.leb_gt, Z.ltb_ge; destruct Hr; [left | right]; lia).
    cbn [snd flash set_disk disk flashed]. rewrite S.
    repeat split; [|now right].
    intros r Hp. specialize (P r Hp). now injection P.
  - cbn [snd flash disk flashed]. repeat split. now left.
Qed.

Lemma C8_witness :
  let w := {| disk := Text "[ 1, 2, 3 ]"; BLOCKED_PATTERNS := [JStr "ddos"];
              is_admin := true; flashed := [] |} in
  BLOCKED_PATTERNS (snd (admin_remove_rule (Some "99") w)) = BLOCKED_PATTERNS w
  /\ disk (snd (admin_remove_rule (Some "99") w)) = disk w.
Proof.
  intros w.
  assert (Hr : out_of_range (Some "99")
                 (List.length (fst (load_rules (disk w))))).
  { right. cbn. lia. }
  destruct (C8_out_of_range_removal_changes_nothing (Some "99") w eq_refl Hr)
    as (_ & Hm & _ & Hd & _).
  split; [exact Hm | exact (Hd _ eq_refl)].
Defined.

(** C1, on the code.  After the default rules are loaded, a logged-in admin
    removes rule 0, [ddos].  The file then holds the default rules without
    [ddos]; the rules in memory are still all the default rules, and the
    check still blocks the text [ddos], which the rules of the file would let
    through.  [admin_add_rule], on the same world, does leave in memory what
    the file holds. *)
Theorem C1_remove_leaves_memory_stale :
  let w := {| disk := default_file; BLOCKED_PATTERNS := DEFAULT_RULES;
              is_admin := true; flashed := [] |} in
  let w' := snd (admin_remove_rule (Some "0") w) in
  let w'' := snd (admin_add_rule (Some "botnet") w) in
  persisted (disk w') = Some (tl DEFAULT_RULES)
  /\ BLOCKED_PATTERNS w' = DEFAULT_RULES
  /\ flashed w' = [Removed (JStr "ddos")]
  /\ is_malicious Re.engine (BLOCKED_PATTERNS w') "ddos" = Ok true
  /\ is_malicious Re.engine (tl DEFAULT_RULES) "ddos" = Ok false
  /\ persisted (disk w'') = Some (BLOCKED_PATTERNS w'').
Proof. vm_compute. repeat split. Qed.


(** * Further properties of the code *)

(** ** The rule store and the rule routes *)

Section RouteFacts.

Lemma persisted_save_strings (R : list string) (d : file) :
  persisted (save_rules (map JStr R) d) = Some (map JStr R).
Proof. unfold persisted. now rewrite json_load_save_strings. Qed.

Lemma load_rules_fst_snd (d : file) :
  load_rules d = (fst (load_rules d), snd (load_rules d)).
Proof. now destruct (load_rules d). Qed.

Lemma pop_strings (i : nat) (R : list string) :
  i < List.length R ->
  pop i (map JStr R) = (JStr (nth i R EmptyString), map JStr (without i R)).
Proof.
  intros H. unfold pop, without. f_equal.
  - rewrite (nth_indep _ JNull (JStr EmptyString))
      by (now rewrite length_map).
    apply map_nth.
  - now rewrite map_app, firstn_map, skipn_map.
Qed.

Lemma add_unfold (p : string) (w : world) :
  is_admin w = true ->
  Str.strip p <> EmptyString ->
  admin_add_rule (Some p) w
  = (RedirectAdminIndex,
     flash (Added (Str.strip p))
       (set_BLOCKED_PATTERNS
          (fst (load_rules (save_rules (fst (load_rules (disk w)) ++ [JStr (Str.strip p)])%list
                              (snd (load_rules (disk w))))))
          (set_disk
             (snd (load_rules (save_rules (fst (load_rules (disk w)) ++ [JStr (Str.strip p)])%list
                                 (snd (load_rules (disk w))))))
             w))).
Proof.
  intros Ha Hp. unfold admin_add_rule, is_admin_logged_in.
  rewrite Ha. cbn [negb].
  destruct (Str.strip p) as [|c q] eqn:E; [now elim Hp|].
  destruct (load_rules (disk w)) as [rules d1]. cbn [fst snd].
  now destruct (load_rules (save_rules (rules ++ [JStr (String c q)])%list d1)).
Qed.

End RouteFacts.

(** X1.  Whatever the file was, after [load_rules] it exists and holds
    exactly the list that was returned, and loading again returns the same
    list and leaves the file as it is. *)
Theorem X1_load_leaves_what_it_returned (d : file) :
  file_exists (snd (load_rules d)) = true
  /\ persisted (snd (load_rules d)) = Some (fst (load_rules d))
  /\ load_rules (snd (load_rules d)) = load_rules d.
Proof.
  pose proof (load_rules_leaves_persisted d) as P.
  split; [exact (persisted_exists _ _ P)|].
  split; [exact P | apply load_rules_stable].
Qed.

(** X2.  For a logged-in admin, an accepted add, a reload and a reset each
    leave the rules in memory equal to the rules the file holds, whatever the
    file and the memory were before; so does the start of the program. *)
Theorem X2_add_reload_reset_synchronise
  (p : string) (w : world) (d : file) :
  is_admin w = true ->
  (Str.strip p <> EmptyString -> in_sync (snd (admin_add_rule (Some p) w)))
  /\ in_sync (snd (admin_reload_rules w))
  /\ in_sync (snd (admin_reset_rules w))
  /\ in_sync (startup d).
Proof.
  intros Ha. unfold in_sync. repeat split.
  - intros Hp. rewrite (add_unfold p w Ha Hp). cbn [snd flash disk BLOCKED_PATTERNS
      set_BLOCKED_PATTERNS set_disk].
    apply load_rules_leaves_persisted.
  - unfold admin_reload_rules, is_admin_logged_in. rewrite Ha. cbn [negb].
    pose proof (load_rules_leaves_persisted (disk w)) as P.
    destruct (load_rules (disk w)). exact P.
  - unfold admin_reset_rules, is_admin_logged_in. rewrite Ha. cbn [negb].
    pose proof (load_rules_leaves_persisted (save_rules DEFAULT_RULES (disk w))) as P.
    destruct (load_rules (save_rules DEFAULT_RULES (disk w))). exact P.
  - unfold startup.
    pose proof (load_rules_leaves_persisted d) as P.
    destruct (load_rules d). exact P.
Qed.

Lemma X2_witness :
  in_sync (snd (admin_add_rule (Some " botnet ")
                  {| disk := Text "[1]"; BLOCKED_PATTERNS := [];
                     is_admin := true; flashed := [] |})).
Proof.
  apply (X2_add_reload_reset_synchronise " botnet "
           {| disk := Text "[1]"; BLOCKED_PATTERNS := [];
              is_admin := true; flashed := [] |} Absent eq_refl).
  discriminate.
Defined.

(** X3.  When the store holds (or, being missing or corrupt, is reset to) a
    list of strings [R], an accepted add of the pattern [p] leaves the file
    and the memory holding [R] followed by [p] stripped of surrounding white
    space, also when that rule is in [R] already, and flashes the stripped
    pattern. *)
Theorem X3_add_appends_the_stripped_pattern
  (R : list string) (p : string) (w : world) :
  is_admin w = true ->
  fst (load_rules (disk w)) = map JStr R ->
  Str.strip p <> EmptyString ->
  persisted (disk (snd (admin_add_rule (Some p) w)))
  = Some (map JStr (R ++ [Str.strip p])%list)
  /\ BLOCKED_PATTERNS (snd (admin_add_rule (Some p) w))
     = map JStr (R ++ [Str.strip p])%list
  /\ flashed (snd (admin_add_rule (Some p) w))
     = (flashed w ++ [Added (Str.strip p)])%list.
Proof.
  intros Ha HR Hp. rewrite (add_unfold p w Ha Hp), HR.
  cbn [snd flash disk BLOCKED_PATTERNS flashed set_BLOCKED_PATTERNS set_disk].
  change (map JStr R ++ [JStr (Str.strip p)])%list
    with (map JStr R ++ map JStr [Str.strip p])%list.
  rewrite <- map_app.
  rewrite (load_rules_persisted _ _ (persisted_save_strings _ _)).
  cbn [fst snd]. repeat split. apply persisted_save_strings.
Qed.

Lemma X3_witness :
  BLOCKED_PATTERNS
    (snd (admin_add_rule (Some " ddos ")
            {| disk := save_rules [JStr "ddos"] Absent; BLOCKED_PATTERNS := [];
               is_admin := true; flashed := [] |}))
  = map JStr ["ddos"; "ddos"].
Proof.
  refine (proj1 (proj2 (X3_add_appends_the_stripped_pattern ["ddos"] " ddos "
           {| disk := save_rules [JStr "ddos"] Absent; BLOCKED_PATTERNS := [];
              is_admin := true; flashed := [] |} eq_refl eq_refl _))).
  discriminate.
Defined.

Section RouteFacts2.

Lemma add_on_strings (R : list string) (p : string) (w : world) :
  is_admin w = true ->
  fst (load_rules (disk w)) = map JStr R ->
  Str.strip p <> EmptyString ->
  snd (admin_add_rule (Some p) w)
  = flash (Added (Str.strip p))
      (set_BLOCKED_PATTERNS (map JStr (R ++ [Str.strip p])%list)
         (set_disk (save_rules (map JStr (R ++ [Str.strip p])%list) (disk w)) w)).
Proof.
  intros Ha HR Hp. rewrite (add_unfold p w Ha Hp), HR.
  change (map JStr R ++ [JStr (Str.strip p)])%list
    with (map JStr R ++ map JStr [Str.strip p])%list.
  rewrite <- map_app.
  rewrite (load_rules_persisted _ _ (persisted_save_strings _ _)).
  reflexivity.
Qed.

Lemma remove_on_strings
  (R : list string) (i : nat) (form_index : option string) (w : world) :
  is_admin w = true ->
  fst (load_rules (disk w)) = map JStr R ->
  PyInt.int (index_text form_index) = Some (Z.of_nat i) ->
  i < List.length R ->
  snd (admin_remove_rule form_index w)
  = flash (Removed (JStr (nth i R EmptyString)))
      (set_disk (save_rules (map JStr (without i R)) (disk w)) w).
Proof.
  intros Ha HR Hi Hlt. unfold admin_remove_rule, is_admin_logged_in.
  rewrite Ha. cbn [negb]. unfold index_text in Hi. rewrite Hi.
  rewrite (load_rules_fst_snd (disk w)), HR.
  replace ((0 <=? Z.of_nat i)%Z
           && (Z.of_nat i <? Z.of_nat (List.length (map JStr R)))%Z)
    with true
    by (symmetry; apply andb_true_iff; rewrite length_map;
        split; [apply Z.leb_le | apply Z.ltb_lt]; lia).
  rewrite Nat2Z.id, (pop_strings i R Hlt).
  rewrite (load_rules_persisted _ _ (persisted_save_strings _ _)).
  reflexivity.
Qed.


End RouteFacts2.



(** X5.  When the store holds (or is reset to) a list of strings [R] and
    the index field reads as a position [i] of [R], the remove route leaves the
    file holding [R] without its element at [i], the other rules in their
    order, flashes the removed rule, and leaves the rules in memory as they
    were. *)
Theorem X5_remove_deletes_the_indexed_rule
  (R : list string) (i : nat) (form_index : option string) (w : world) :
  is_admin w = true ->
  fst (load_rules (disk w)) = map JStr R ->
  PyInt.int (index_text form_index) = Some (Z.of_nat i) ->
  i < List.length R ->
  persisted (disk (snd (admin_remove_rule form_index w)))
  = Some (map JStr (without i R))
  /\ flashed (snd (admin_remove_rule form_index w))
     = (flashed w ++ [Removed (JStr (nth i R EmptyString))])%list
  /\ BLOCKED_PATTERNS (snd (admin_remove_rule form_index w)) = BLOCKED_PATTERNS w.
Proof.
  intros Ha HR Hi Hlt. rewrite (remove_on_strings R i form_index w Ha HR Hi Hlt).
  cbn [flash set_disk disk flashed BLOCKED_PATTERNS].
  repeat split. apply persisted_save_strings.
Qed.

Lemma X5_witness :
  persisted
    (disk (snd (admin_remove_rule (Some " 1 ")
                  {| disk := save_rules (map JStr ["a"; "b"; "c"]) Absent;
                     BLOCKED_PATTERNS := [];
                     is_admin := true; flashed := [] |})))
  = Some (map JStr ["a"; "c"]).
Proof.
  refine (proj1 (X5_remove_deletes_the_indexed_rule ["a"; "b"; "c"] 1 (Some " 1 ")
           {| disk := save_rules (map JStr ["a"; "b"; "c"]) Absent;
              BLOCKED_PATTERNS := [];
              is_admin := true; flashed := [] |} eq_refl eq_refl eq_refl _)).
  cbn. lia.
Defined.

(** X6.  A reload after such a removal brings the memory in line: the rules
    in memory are then [R] without the removed element, equal to what the file
    holds. *)
Theorem X6_reload_after_remove_synchronises
  (R : list string) (i : nat) (form_index : option string) (w : world) :
  is_admin w = true ->
  fst (load_rules (disk w)) = map JStr R ->
  PyInt.int (index_text form_index) = Some (Z.of_nat i) ->
  i < List.length R ->
  BLOCKED_PATTERNS (snd (admin_reload_rules (snd (admin_remove_rule form_index w))))
  = map JStr (without i R)
  /\ in_sync (snd (admin_reload_rules (snd (admin_remove_rule form_index w)))).
Proof.
  intros Ha HR Hi Hlt. rewrite (remove_on_strings R i form_index w Ha HR Hi Hlt).
  unfold in_sync, admin_reload_rules, is_admin_logged_in.
  cbn [flash set_disk disk is_admin]. rewrite Ha. cbn [negb].
  rewrite (load_rules_persisted _ _ (persisted_save_strings _ _)).
  cbn [snd flash set_disk set_BLOCKED_PATTERNS disk BLOCKED_PATTERNS].
  split; [reflexivity | apply persisted_save_strings].
Qed.

Lemma X6_witness :
  BLOCKED_PATTERNS
    (snd (admin_reload_rules
            (snd (admin_remove_rule (Some "0")
                    {| disk := default_file; BLOCKED_PATTERNS := DEFAULT_RULES;
                       is_admin := true; flashed := [] |}))))
  = tl DEFAULT_RULES.
Proof.
  refine (proj1 (X6_reload_after_remove_synchronises
           [ "ddos"; "exploit"; "zero-day"; "backdoor"; "rootkit";
             "trojan"; "password cracking"; "brute-force"; "bypass security";
             "unauthorized"; "how to hack"; "delete data" ] 0 (Some "0")
           {| disk := default_file; BLOCKED_PATTERNS := DEFAULT_RULES;
              is_admin := true; flashed := [] |} eq_refl eq_refl eq_refl _)).
  cbn. lia.
Defined.

(** X7.  For a logged-in admin a reset leaves the file holding the default
    rules and the memory holding them, whatever they were before, and a second
    reset changes nothing but the list of flashed messages. *)
Theorem X7_reset_restores_the_defaults (w : world) :
  is_admin w = true ->
  disk (snd (admin_reset_rules w)) = default_file
  /\ BLOCKED_PATTERNS (snd (admin_reset_rules w)) = DEFAULT_RULES
  /\ snd (admin_reset_rules (snd (admin_reset_rules w)))
     = flash ResetDone (snd (admin_reset_rules w)).
Proof.
  intros Ha.
  assert (E : forall v, is_admin v = true ->
              snd (admin_reset_rules v)
              = flash ResetDone (set_BLOCKED_PATTERNS DEFAULT_RULES
                                   (set_disk default_file v))).
  { intros v Hv. unfold admin_reset_rules, is_admin_logged_in.
    rewrite Hv. cbn [negb]. rewrite save_rules_default.
    now rewrite (load_rules_persisted _ _ persisted_default). }
  rewrite (E w Ha). repeat split.
  rewrite E by exact Ha. reflexivity.
Qed.

Lemma X7_witness :
  BLOCKED_PATTERNS
    (snd (admin_reset_rules
            {| disk := Undecodable; BLOCKED_PATTERNS := [JInt 1];
               is_admin := true; flashed := [] |}))
  = DEFAULT_RULES.
Proof.
  exact (proj1 (proj2 (X7_reset_restores_the_defaults
           {| disk := Undecodable; BLOCKED_PATTERNS := [JInt 1];
              is_admin := true; flashed := [] |} eq_refl))).
Defined.



(** ** The matcher *)

Section MatcherFacts2.

Variable re : regex_engine.


Lemma first_match_raise (pats : list json) (t : string) (e : exn) :
  first_match re pats t = Raise e -> exists v, In v pats /\ is_str v = false.
Proof.
  induction pats as [|pat pats IH]; intros H; [discriminate|].
  cbn [first_match] in H.
  destruct (rule_blocks re pat t) as [[|]|e'] eqn:X; try discriminate.
  - destruct (IH H) as (v & Hin & Hv). exists v. split; [now right | exact Hv].
  - exists pat. split; [now left|].
    destruct pat; try reflexivity. rewrite rule_blocks_str in X. discriminate.
Qed.

Lemma first_match_app_strings (R : list string) (rest : list json) (t : string) :
  existsb (fun p => rule_verdict re p t) R = false ->
  first_match re (map JStr R ++ rest)%list t = first_match re rest t.
Proof.
  induction R as [|r R IH]; intros H; [reflexivity|].
  cbn [existsb] in H. apply orb_false_iff in H as [Hr HR].
  cbn [map app first_match]. rewrite rule_blocks_str, Hr. now apply IH.
Qed.

Lemma no_match_existsb (R : list string) (T : string) :
  (forall r, In r R -> ~ rule_matches re r T) ->
  existsb (fun p => rule_verdict re p (Str.lower T)) R = false.
Proof.
  intros H. destruct (existsb _ R) eqn:X; [|reflexivity].
  apply existsb_exists in X as (r & Hin & Hr).
  apply rule_verdict_matches in Hr. now elim (H r Hin).
Qed.

End MatcherFacts2.



(** X10.  On string rules the verdict depends on the set of rules only:
    two lists with the same members, in any order and with any repetitions,
    give the same verdict on every text. *)
Theorem X10_order_and_duplicates_do_not_matter
  (re : regex_engine) (R R' : list string) (T : string) :
  (forall r, In r R <-> In r R') ->
  is_malicious re (map JStr R) T = is_malicious re (map JStr R') T.
Proof.
  intros H. rewrite !is_malicious_strings. f_equal.
  apply eq_true_iff_eq. rewrite !existsb_exists.
  split; intros (r & Hin & Hr); exists r; (split; [now apply H | exact Hr]).
Qed.

Lemma X10_witness :
  is_malicious Re.engine (map JStr ["ddos"; "re:a+b"; "ddos"]) "xaab"
  = is_malicious Re.engine (map JStr ["re:a+b"; "ddos"]) "xaab".
Proof.
  apply X10_order_and_duplicates_do_not_matter.
  intros r; cbn; tauto.
Defined.

(** X11.  The check raises only when a rule in memory is not a string, and
    then it raises as soon as it reaches the first such rule: if the string
    rules before it do not match the text, the result is [AttributeError],
    whatever follows. *)
Theorem X11_check_raises_at_first_non_string_rule
  (re : regex_engine) (pats : list json) (T : string) :
  (forall e, is_malicious re pats T = Raise e ->
             exists v, In v pats /\ is_str v = false)
  /\ (forall R v rest,
        pats = (map JStr R ++ v :: rest)%list ->
        is_str v = false ->
        (forall r, In r R -> ~ rule_matches re r T) ->
        is_malicious re pats T = Raise AttributeError).
Proof.
  split.
  - intros e H. exact (first_match_raise re pats _ e H).
  - intros R v rest -> Hv HR. unfold is_malicious.
    rewrite first_match_app_strings by now apply no_match_existsb.
    cbn [first_match]. now destruct v.
Qed.

Lemma X11_witness :
  is_malicious Re.engine [JStr "ddos"; JNull; JStr EmptyString] "hello"
  = Raise AttributeError.
Proof.
  apply (proj2 (X11_check_raises_at_first_non_string_rule Re.engine
                  [JStr "ddos"; JNull; JStr EmptyString] "hello")
           ["ddos"] JNull [JStr EmptyString] eq_refl eq_refl).
  intros r [<-|[]] H. apply rule_verdict_matches in H. discriminate H.
Defined.

(** ** Stripping and splitting *)

Section StripFacts.

Lemma all_chars_cons (f : ascii -> bool) (c : ascii) (s : string) :
  Str.all_chars f (String c s) = f c && Str.all_chars f s.
Proof. reflexivity. Qed.

Lemma lstrip_head (s : string) (c : ascii) (s' : string) :
  Str.lstrip s = String c s' -> Str.isspace c = false.
Proof.
  induction s as [|a s IH]; cbn [Str.lstrip]; [discriminate|].
  destruct (Str.isspace a) eqn:X; [exact IH|].
  intros H. injection H as <- _. exact X.
Qed.

Lemma lstrip_split (s : string) :
  exists pre, s = pre ++ Str.lstrip s /\ Str.all_chars Str.isspace pre = true.
Proof.
  induction s as [|a s (pre & E & Hp)]; [now exists EmptyString|].
  cbn [Str.lstrip]. destruct (Str.isspace a) eqn:X.
  - exists (String a pre). cbn [append]. rewrite <- E. split; [reflexivity|].
    now rewrite all_chars_cons, X, Hp.
  - now exists EmptyString.
Qed.

Lemma rstrip_split (s : string) :
  exists post, s = Str.rstrip s ++ post /\ Str.all_chars Str.isspace post = true.
Proof.
  induction s as [|a s (post & E & Hp)]; [now exists EmptyString|].
  cbn [Str.rstrip]. destruct (Str.rstrip s) as [|b r] eqn:X.
  - cbn [append] in E. subst post. destruct (Str.isspace a) eqn:Y.
    + exists (String a s). split; [reflexivity|]. now rewrite all_chars_cons, Y, Hp.
    + exists s. now split.
  - exists post. cbn [append] in E |- *. now rewrite <- E.
Qed.

Lemma rstrip_last (s s' : string) (c : ascii) :
  Str.rstrip s = s' ++ String c EmptyString -> Str.isspace c = false.
Proof.
  revert s'; induction s as [|a s IH]; intros s'; cbn [Str.rstrip].
  - destruct s'; discriminate.
  - destruct (Str.rstrip s) as [|b r] eqn:X.
    + destruct (Str.isspace a) eqn:Y; [destruct s'; discriminate|].
      destruct s' as [|x [|y s']]; cbn [append]; intros H;
        try discriminate; injection H as H; now subst.
    + destruct s' as [|x s']; cbn [append]; intros H.
      * discriminate.
      * injection H as _ H. exact (IH _ H).
Qed.

Lemma strip_is_stripped (s : string) : stripped (Str.strip s).
Proof.
  unfold Str.strip. split.
  - intros c s' H. destruct (rstrip_split (Str.lstrip s)) as (post & E & _).
    rewrite H in E. cbn [append] in E. exact (lstrip_head _ _ _ E).
  - intros s' c H. exact (rstrip_last _ _ _ H).
Qed.

Lemma strip_split (s : string) :
  exists pre post,
    s = pre ++ Str.strip s ++ post
    /\ Str.all_chars Str.isspace pre = true
    /\ Str.all_chars Str.isspace post = true.
Proof.
  destruct (lstrip_split s) as (pre & E1 & H1).
  destruct (rstrip_split (Str.lstrip s)) as (post & E2 & H2).
  exists pre, post. unfold Str.strip. now rewrite <- E2.
Qed.

Lemma slice_from_append (a b : string) :
  Str.slice_from (String.length a) (a ++ b) = b.
Proof. induction a as [|c a IH]; [now destruct b | exact IH]. Qed.

Lemma append_same_length (a b a' b' : string) :
  a ++ b = a' ++ b' -> String.length a = String.length a' -> a = a' /\ b = b'.
Proof.
  revert a'; induction a as [|c a IH]; intros [|c' a'] H L; try discriminate.
  - now split.
  - cbn [append] in H. injection H as -> H. injection L as L.
    destruct (IH _ H L) as [-> ->]. now split.
Qed.

Lemma prefix_slice (sep text : string) :
  String.prefix sep text = true ->
  text = sep ++ Str.slice_from (String.length sep) text.
Proof.
  intros H. apply prefix_split in H as [r ->]. now rewrite slice_from_append.
Qed.

(** [after_first] finds the leftmost occurrence. *)
Lemma after_first_spec (sep text rest : string) :
  after_first sep text = Some rest ->
  exists pre,
    text = pre ++ sep ++ rest
    /\ forall pre' post', text = pre' ++ sep ++ post' ->
                          String.length pre <= String.length pre'.
Proof.
  revert rest; induction text as [|c text IH]; intros rest;
    cbn [after_first]; unfold Str.startswith;
    destruct (String.prefix sep _) eqn:X.
  - intros H. injection H as <-.
    exists EmptyString. split; [exact (prefix_slice _ _ X) | intros; cbn; lia].
  - discriminate.
  - intros H. injection H as <-.
    exists EmptyString. split; [exact (prefix_slice _ _ X) | intros; cbn; lia].
  - intros H. destruct (IH _ H) as (pre & E & M).
    exists (String c pre). split; [cbn [append]; now rewrite <- E|].
    intros [|c' pre'] post' E'.
    + cbn [append] in E'. rewrite E', prefix_append in X. discriminate.
    + cbn [append] in E'. injection E' as _ E'.
      specialize (M _ _ E'). cbn [String.length]. lia.
Qed.

Lemma contains_after_first (sep text : string) :
  Str.contains text sep = true -> exists rest, after_first sep text = Some rest.
Proof.
  induction text as [|c text IH]; cbn [Str.contains after_first];
    destruct (Str.startswith _ sep); cbn [orb]; eauto; discriminate.
Qed.

End StripFacts.

(** ** The chat route *)

Section ChatFacts.

Variable re : regex_engine.
Variable float_truthy : string -> bool.
Variable generator : string -> Z -> generation.

Lemma dict_get_has_key (k : string) (items : list (string * json)) :
  existsb (fun kv => (k =? fst kv)%string) items = true
  <-> exists v, dict_get k items = Some v.
Proof.
  induction items as [|[k' v'] items IH]; cbn [existsb dict_get fst].
  - split; [discriminate | intros [v H]; discriminate].
  - destruct (k =? k')%string; cbn [orb]; [|exact IH].
    split; eauto.
Qed.

(** The route on a request that is a [dict] with a [str] prompt. *)
Lemma chat_api_prompt (items : list (string * json)) (p : string) (mem : list json) :
  dict_get "prompt" items = Some (JStr p) ->
  chat_api re float_truthy generator (JDict items) mem
  = match is_malicious re mem (Str.strip p) with
    | Raise e => Unhandled (FromCheck e)
    | Ok true => Respond RefusedInput
    | Ok false =>
        match generate_text generator (full_prompt (Str.strip p)) 300 with
        | GenerationError e => Respond (GenerationFailed e)
        | Produced answer =>
            match is_malicious re mem answer with
            | Raise e => Unhandled (FromCheck e)
            | Ok true => Respond RefusedOutput
            | Ok false => Respond (Answer answer)
            end
        end
    end.
Proof.
  intros H. unfold chat_api.
  assert (K : existsb (fun kv => ("prompt" =? fst kv)%string) items = true)
    by (apply dict_get_has_key; eauto).
  cbn [truthy has_prompt]. rewrite K, H.
  destruct items; [discriminate | reflexivity].
Qed.



End ChatFacts.

(** X12.  A rule file whose first entry is not a string is accepted when
    the program starts, and from then on every chat request that carries a
    [str] prompt ends in an unhandled [AttributeError], before the generator
    is called. *)
Theorem X12_non_string_rule_breaks_the_chat
  (re : regex_engine) (float_truthy : string -> bool)
  (generator : string -> Z -> generation)
  (d : file) (v : json) (rest : list json)
  (items : list (string * json)) (p : string) :
  persisted d = Some (v :: rest) ->
  is_str v = false ->
  dict_get "prompt" items = Some (JStr p) ->
  BLOCKED_PATTERNS (startup d) = v :: rest
  /\ chat_api re float_truthy generator (JDict items) (BLOCKED_PATTERNS (startup d))
     = Unhandled (FromCheck AttributeError).
Proof.
  intros Hd Hv Hp.
  assert (E : BLOCKED_PATTERNS (startup d) = v :: rest).
  { unfold startup. now rewrite (load_rules_persisted d _ Hd). }
  split; [exact E|].
  rewrite (chat_api_prompt re float_truthy generator items p _ Hp), E.
  unfold is_malicious. cbn [first_match]. now destruct v.
Qed.

Lemma X12_witness :
  chat_api Re.engine (fun _ => true) (fun _ _ => Produced "hi")
    (JDict [("prompt", JStr "hello")]) (BLOCKED_PATTERNS (startup (Text "[1]")))
  = Unhandled (FromCheck AttributeError).
Proof.
  exact (proj2 (X12_non_string_rule_breaks_the_chat Re.engine (fun _ => true)
                  (fun _ _ => Produced "hi") (Text "[1]") (JInt 1) []
                  [("prompt", JStr "hello")] "hello" eq_refl eq_refl eq_refl)).
Defined.

(** X13.  A prompt that the check blocks is refused with the input refusal
    whatever the generator is: the generator has no part in the response. *)
Theorem X13_blocked_prompt_is_refused_before_generation
  (re : regex_engine) (float_truthy : string -> bool)
  (generator : string -> Z -> generation)
  (items : list (string * json)) (p : string) (mem : list json) :
  dict_get "prompt" items = Some (JStr p) ->
  is_malicious re mem (Str.strip p) = Ok true ->
  chat_api re float_truthy generator (JDict items) mem = Respond RefusedInput.
Proof.
  intros Hp Hb. rewrite (chat_api_prompt _ _ _ items p mem Hp). now rewrite Hb.
Qed.

Lemma X13_witness :
  chat_api Re.engine (fun _ => true) (fun _ _ => Produced "never read")
    (JDict [("prompt", JStr "  How to HACK a router ")]) DEFAULT_RULES
  = Respond RefusedInput.
Proof.
  exact (X13_blocked_prompt_is_refused_before_generation Re.engine (fun _ => true)
           (fun _ _ => Produced "never read")
           [("prompt", JStr "  How to HACK a router ")] "  How to HACK a router "
           DEFAULT_RULES eq_refl eq_refl).
Defined.



Section ChatFacts2.

Variable generator : string -> Z -> generation.

Lemma generate_text_first_echo (prompt text pre rest : string) (n : Z) :
  generator prompt n = Produced text ->
  prompt <> EmptyString ->
  text = pre ++ prompt ++ rest ->
  (forall pre' post', text = pre' ++ prompt ++ post' ->
                      String.length pre <= String.length pre') ->
  generate_text generator prompt n = Produced (Str.strip rest).
Proof.
  intros G Hp E M. unfold generate_text. rewrite G.
  assert (C : Str.contains text prompt = true)
    by (apply contains_iff; now exists pre, rest).
  rewrite C. destruct prompt as [|c q]; [now elim Hp|].
  destruct (contains_after_first _ _ C) as [rest0 A]. rewrite A.
  destruct (after_first_spec _ _ _ A) as (pre0 & E0 & M0).
  assert (L : String.length pre = String.length pre0).
  { specialize (M _ _ E0). specialize (M0 _ _ E). lia. }
  rewrite E in E0.
  destruct (append_same_length _ _ _ _ E0 L) as [_ E1].
  destruct (append_same_length _ _ _ _ E1 eq_refl) as [_ ->]. reflexivity.
Qed.

Lemma full_prompt_not_empty (p : string) : full_prompt p <> EmptyString.
Proof. discriminate. Qed.

End ChatFacts2.

(** X15.  What [generate_text] makes of the text the generator produced:
    with an empty prompt it raises the [ValueError] of [split]; when the prompt
    does not occur in the text it returns the text stripped; otherwise it
    returns, stripped, what follows the first occurrence of the prompt. *)
Theorem X15_generate_text_drops_the_first_echo
  (generator : string -> Z -> generation) (prompt text : string) (n : Z) :
  generator prompt n = Produced text ->
  (prompt = EmptyString ->
     generate_text generator prompt n = GenerationError "empty separator")
  /\ (Str.contains text prompt = false ->
        generate_text generator prompt n = Produced (Str.strip text))
  /\ (forall pre rest,
        prompt <> EmptyString ->
        text = pre ++ prompt ++ rest ->
        (forall pre' post', text = pre' ++ prompt ++ post' ->
                            String.length pre <= String.length pre') ->
        generate_text generator prompt n = Produced (Str.strip rest)).
Proof.
  intros G. split; [|split].
  - intros ->. unfold generate_text. rewrite G. now rewrite contains_empty.
  - intros C. unfold generate_text. now rewrite G, C.
  - intros pre rest Hp E M.
    exact (generate_text_first_echo generator prompt text pre rest n G Hp E M).
Qed.

Lemma X15_witness :
  generate_text (fun _ _ => Produced "Q: hi A: Q: hi there ") "Q: hi" 256
  = Produced "A: Q: hi there".
Proof.
  refine (proj2 (proj2 (X15_generate_text_drops_the_first_echo
            (fun _ _ => Produced "Q: hi A: Q: hi there ") "Q: hi"
            "Q: hi A: Q: hi there " 256 eq_refl))
            EmptyString " A: Q: hi there " _ eq_refl _).
  - discriminate.
  - intros; cbn; lia.
Defined.

(** X16.  A request without a usable prompt.  A value that is false in
    Python, or a [dict] without the key [prompt], gets the 400 answer; a
    [dict] whose prompt is not a [str] ends in an unhandled [AttributeError];
    a non-empty list or string gets the 400 answer unless it contains
    [prompt], as an element or as a substring, and then ends in an unhandled
    [TypeError]; a number or [true] ends in an unhandled [TypeError]. *)
Theorem X16_requests_without_a_usable_prompt
  (re : regex_engine) (float_truthy : string -> bool)
  (generator : string -> Z -> generation) (data : json) (mem : list json) :
  (truthy float_truthy data = false ->
     chat_api re float_truthy generator data mem = Respond MissingPrompt)
  /\ (forall items,
        data = JDict items -> dict_get "prompt" items = None ->
        chat_api re float_truthy generator data mem = Respond MissingPrompt)
  /\ (forall items v,
        data = JDict items -> dict_get "prompt" items = Some v ->
        is_str v = false ->
        chat_api re float_truthy generator data mem = Unhandled NoStrip)
  /\ (forall items,
        data = JList items -> items <> [] ->
        chat_api re float_truthy generator data mem
        = if existsb (fun v => match v with
                               | JStr s => ("prompt" =? s)%string
                               | _ => false
                               end) items
          then Unhandled TypeError else Respond MissingPrompt)
  /\ (forall s,
        data = JStr s -> s <> EmptyString ->
        chat_api re float_truthy generator data mem
        = if Str.contains s "prompt"
          then Unhandled TypeError else Respond MissingPrompt)
  /\ (truthy float_truthy data = true ->
      (forall items, data <> JDict items) ->
      (forall items, data <> JList items) ->
      (forall s, data <> JStr s) ->
      chat_api re float_truthy generator data mem = Unhandled TypeError).
Proof.
  split; [|split; [|split; [|split; [|split]]]].
  - intros H. unfold chat_api. now rewrite H.
  - intros items -> H. unfold chat_api.
    destruct (negb (truthy float_truthy (JDict items))); [reflexivity|].
    cbn [has_prompt].
    destruct (existsb _ items) eqn:K; [|reflexivity].
    apply dict_get_has_key in K as [v K]. congruence.
  - intros items v -> H Hv. unfold chat_api.
    assert (K : existsb (fun kv => ("prompt" =? fst kv)%string) items = true)
      by (apply dict_get_has_key; eauto).
    cbn [truthy has_prompt]. rewrite K, H.
    destruct items; [discriminate|]. cbn [negb].
    destruct v; try reflexivity. discriminate.
  - intros items -> H. unfold chat_api. cbn [truthy has_prompt].
    destruct items; [now elim H|]. cbn [negb].
    now destruct (existsb _ _).
  - intros s -> H. unfold chat_api. cbn [truthy has_prompt].
    apply String.eqb_neq in H. rewrite H. cbn [negb].
    now destruct (Str.contains s "prompt").
  - intros H Nd Nl Ns. unfold chat_api. rewrite H. cbn [negb].
    destruct data; try reflexivity; try discriminate.
    + now elim (Ns s).
    + now elim (Nl items).
    + now elim (Nd items).
Qed.

Lemma X16_witness :
  chat_api Re.engine (fun _ => true) (fun _ _ => Produced "x")
    (JStr "my prompt is") DEFAULT_RULES
  = Unhandled TypeError.
Proof.
  refine (proj1 (proj2 (proj2 (proj2 (proj2
            (X16_requests_without_a_usable_prompt Re.engine (fun _ => true)
               (fun _ _ => Produced "x") (JStr "my prompt is") DEFAULT_RULES)))))
            "my prompt is" eq_refl _).
  discriminate.
Defined.

(** X17.  When the generator echoes the composed prompt and continues it,
    only the continuation is checked and served: with a prompt that passes the
    check, the response is the stripped continuation if the check passes it
    and the output refusal if the check blocks it. *)
Theorem X17_only_the_continuation_is_checked
  (re : regex_engine) (float_truthy : string -> bool)
  (generator : string -> Z -> generation)
  (items : list (string * json)) (p cont : string) (mem : list json) (b : bool) :
  dict_get "prompt" items = Some (JStr p) ->
  is_malicious re mem (Str.strip p) = Ok false ->
  generator (full_prompt (Str.strip p)) 300%Z
  = Produced (full_prompt (Str.strip p) ++ cont) ->
  is_malicious re mem (Str.strip cont) = Ok b ->
  chat_api re float_truthy generator (JDict items) mem
  = Respond (if b then RefusedOutput else Answer (Str.strip cont)).
Proof.
  intros Hp C1 G C2. rewrite (chat_api_prompt _ _ _ items p mem Hp), C1.
  rewrite (generate_text_first_echo generator _ _ EmptyString cont 300 G
             (full_prompt_not_empty _) eq_refl)
    by (intros; cbn; lia).
  rewrite C2. now destruct b.
Qed.

Lemma X17_witness :
  chat_api Re.engine (fun _ => true)
    (fun prompt _ => Produced (prompt ++ " Install a rootkit. "))
    (JDict [("prompt", JStr "what next?")]) DEFAULT_RULES
  = Respond RefusedOutput.
Proof.
  exact (X17_only_the_continuation_is_checked Re.engine (fun _ => true)
           (fun prompt _ => Produced (prompt ++ " Install a rootkit. "))
           [("prompt", JStr "what next?")] "what next?" " Install a rootkit. "
           DEFAULT_RULES true eq_refl eq_refl eq_refl eq_refl).
Defined.

(** X18.  The rule an accepted add stores is the submitted pattern without
    the white space around it: it is not empty, has no white space at either
    end, and the submitted pattern is that rule between two runs of white
    space. *)
Theorem X18_added_rule_is_the_pattern_stripped
  (R : list string) (p : string) (w : world) :
  is_admin w = true ->
  fst (load_rules (disk w)) = map JStr R ->
  Str.strip p <> EmptyString ->
  exists q pre post,
    BLOCKED_PATTERNS (snd (admin_add_rule (Some p) w)) = map JStr (R ++ [q])%list
    /\ p = pre ++ q ++ post
    /\ Str.all_chars Str.isspace pre = true
    /\ Str.all_chars Str.isspace post = true
    /\ stripped q
    /\ q <> EmptyString.
Proof.
  intros Ha HR Hp. destruct (strip_split p) as (pre & post & E & H1 & H2).
  exists (Str.strip p), pre, post.
  rewrite (add_on_strings R p w Ha HR Hp).
  repeat split; auto; apply strip_is_stripped.
Qed.

Lemma X18_witness :
  exists q pre post,
    BLOCKED_PATTERNS
      (snd (admin_add_rule (Some "  two words ")
              {| disk := Absent; BLOCKED_PATTERNS := [];
                 is_admin := true; flashed := [] |}))
    = map JStr ([ "ddos"; "exploit"; "zero-day"; "backdoor"; "rootkit";
                  "trojan"; "password cracking"; "brute-force"; "bypass security";
                  "unauthorized"; "how to hack"; "delete data" ] ++ [q])%list
    /\ "  two words " = pre ++ q ++ post
    /\ Str.all_chars Str.isspace pre = true
    /\ Str.all_chars Str.isspace post = true
    /\ stripped q
    /\ q <> EmptyString.
Proof.
  apply (X18_added_rule_is_the_pattern_stripped
           [ "ddos"; "exploit"; "zero-day"; "backdoor"; "rootkit";
             "trojan"; "password cracking"; "brute-force"; "bypass security";
             "unauthorized"; "how to hack"; "delete data" ] "  two words "
           {| disk := Absent; BLOCKED_PATTERNS := [];
              is_admin := true; flashed := [] |} eq_refl eq_refl).
  discriminate.
Defined.

(** X19.  A login succeeds exactly when the configured password is not
    empty and equals the submitted one.  A failed attempt leaves the session
    as it was, a logged-in session included, and no attempt touches the file,
    the memory or the flashed rule messages. *)
Theorem X19_login_needs_the_configured_password
  (ADMIN_PASSWORD : string) (form_password : option string) (w : world) :
  let pw := match form_password with
            | Some p => p
            | None => EmptyString
            end in
  let w' := snd (admin_login ADMIN_PASSWORD form_password w) in
  disk w' = disk w
  /\ BLOCKED_PATTERNS w' = BLOCKED_PATTERNS w
  /\ flashed w' = flashed w
  /\ (snd (fst (admin_login ADMIN_PASSWORD form_password w)) = LoggedIn
      <-> ADMIN_PASSWORD <> EmptyString /\ pw = ADMIN_PASSWORD)
  /\ (is_admin w' = true
      <-> is_admin w = true
          \/ (ADMIN_PASSWORD <> EmptyString /\ pw = ADMIN_PASSWORD)).
Proof.
  intros pw w'. subst pw w'. unfold admin_login.
  destruct ADMIN_PASSWORD as [|c A].
  - cbn [fst snd]. split; [|split; [|split; [|split]]]; try reflexivity.
    + split; [discriminate | intros [H _]; now elim H].
    + split; [now left | intros [H|[H _]]; [exact H | now elim H]].
  - destruct (String.eqb_spec
                (match form_password with Some p => p | None => EmptyString end)
                (String c A)) as [E|E];
      cbn [fst snd set_is_admin disk BLOCKED_PATTERNS flashed is_admin];
      (split; [|split; [|split; [|split]]]); try reflexivity.
    + split; [intros _; split; [discriminate | exact E] | reflexivity].
    + split; [intros _; right; split; [discriminate | exact E] | reflexivity].
    + split; [discriminate | intros [_ H]; now elim E].
    + split; [now left | intros [H|[_ H]]; [exact H | now elim E]].
Qed.

(** X20.  With the empty string among string rules in memory the chat is
    shut: every request that carries a [str] prompt gets the input refusal,
    whatever the prompt and the generator. *)
Theorem X20_empty_rule_shuts_the_chat
  (re : regex_engine) (float_truthy : string -> bool)
  (generator : string -> Z -> generation)
  (R : list string) (items : list (string * json)) (p : string) :
  In EmptyString R ->
  dict_get "prompt" items = Some (JStr p) ->
  chat_api re float_truthy generator (JDict items) (map JStr R)
  = Respond RefusedInput.
Proof.
  intros Hin Hp. rewrite (chat_api_prompt _ _ _ items p _ Hp).
  rewrite is_malicious_strings.
  replace (existsb _ R) with true; [reflexivity|].
  symmetry. apply existsb_exists. exists EmptyString. split; [exact Hin|].
  unfold rule_verdict. cbn. apply contains_empty.
Qed.

Lemma X20_witness :
  chat_api Re.engine (fun _ => true) (fun _ _ => Produced "fine")
    (JDict [("user", JNull); ("prompt", JStr "good morning")])
    (map JStr ["ddos"; EmptyString])
  = Respond RefusedInput.
Proof.
  apply (X20_empty_rule_shuts_the_chat Re.engine (fun _ => true)
           (fun _ _ => Produced "fine") ["ddos"; EmptyString]
           [("user", JNull); ("prompt", JStr "good morning")] "good morning").
  - simpl; auto.
  - reflexivity.
Defined.
